(** * EVStats dashboard: the aggregation and normalisation core

    A shallow embedding of [evstats_WebApp.py]: the daily record fetcher,
    the model-count extractor, the monthly aggregator, the maker-metrics
    normaliser and the latest-value summariser, with the properties the
    specification states about them.

    Python objects decoded from JSON are an inductive type whose
    dictionaries are finite maps: a key occurs once, as in Python, and
    the order in which a dictionary lists its keys is left out, since it
    only decides the order of columns and of rows with equal counts.
    Code that can raise returns an [outcome]; code that talks to the
    network also returns the list of requests it issued. *)

From Stdlib Require Import ZArith Lia Floats.SpecFloat Sorted.
From stdpp Require Import gmap strings list fin_maps pretty sorting.

Set Warnings "-register-all".
Local Open Scope Z_scope.

(** ** Python values *)

Module Py.

(** What [r.json()] can return.  Floats are IEEE values, so that the
    infinities and NaN which Python's decoder accepts are present. *)
Inductive pyobj : Type :=
| PNone
| PBool (b : bool)
| PInt (z : Z)
| PFloat (f : spec_float)
| PStr (s : string)
| PList (l : list pyobj)
| PDict (d : gmap string pyobj).

Inductive exn : Type :=
| TypeError
| ValueError
| KeyError
| IndexError
| AttributeError
| OverflowError
| RequestException.

(** The result of running a piece of code: it returns, it raises, or the
    model's loop bound was reached ([OutOfFuel], shown never to happen). *)
Inductive outcome (A : Type) : Type :=
| Returned (a : A)
| Raised (e : exn)
| OutOfFuel.
Arguments Returned {A} a.
Arguments Raised {A} e.
Arguments OutOfFuel {A}.

Definition bind {A B} (k : A → outcome B) (c : outcome A) : outcome B :=
  match c with
  | Returned a => k a
  | Raised e => Raised e
  | OutOfFuel => OutOfFuel
  end.

#[global] Instance outcome_ret : MRet outcome := @Returned.
#[global] Instance outcome_bind : MBind outcome := @bind.

(** [try: body except Exception: handler] *)
Definition try_except {A} (body : outcome A) (handler : outcome A) : outcome A :=
  match body with
  | Raised _ => handler
  | other => other
  end.

Definition isinstance_dict (x : pyobj) : bool :=
  match x with PDict _ => true | _ => false end.

Definition isinstance_list (x : pyobj) : bool :=
  match x with PList _ => true | _ => false end.

Definition isinstance_bool (x : pyobj) : bool :=
  match x with PBool _ => true | _ => false end.

(** [obj[key]] with a string key: only a dictionary holding the key
    answers; a missing key is a [KeyError], any other object a
    [TypeError]. *)
Definition getitem (obj : pyobj) (key : string) : outcome pyobj :=
  match obj with
  | PDict d =>
      match d !! key with
      | Some v => Returned v
      | None => Raised KeyError
      end
  | _ => Raised TypeError
  end.

(** [d.get(key, dflt)] on a dictionary. *)
Definition dict_get (d : gmap string pyobj) (key : string) (dflt : pyobj) : pyobj :=
  default dflt (d !! key).

(** Truth value of an object, as [if js] tests it. *)
Definition truthy (x : pyobj) : bool :=
  match x with
  | PNone => false
  | PBool b => b
  | PInt z => negb (z =? 0)
  | PFloat (S754_zero _) => false
  | PFloat _ => true
  | PStr s => negb (String.eqb s "")
  | PList l => match l with [] => false | _ => true end
  | PDict d => negb (bool_decide (d = ∅))
  end.

Definition nan : pyobj := PFloat S754_nan.

(** [int(f)] for a float: truncation towards zero; the infinities raise
    [OverflowError] and NaN raises [ValueError]. *)
Definition float_trunc (f : spec_float) : outcome Z :=
  match f with
  | S754_zero _ => Returned 0
  | S754_infinity _ => Raised OverflowError
  | S754_nan => Raised ValueError
  | S754_finite s m e =>
      let a := if 0 <=? e then Z.pos m * 2 ^ e else Z.pos m / 2 ^ (- e) in
      Returned (if s then - a else a)
  end.

End Py.
Export Py.

(** ** Library functions the program calls

    [int] on a string, the string parser of [pandas.to_numeric] and
    [DataFrame.sort_values] live outside the repository.  The program is
    verified against their contracts: the sort returns a permutation of
    its rows ordered by descending count, and nothing is assumed about
    how it orders rows with equal counts. *)

Definition count_ge (a b : string * Z) : Prop := a.2 >= b.2.

(** A number as pandas holds it in a numeric column. *)
Inductive number : Type :=
| NInt (z : Z)
| NFloat (f : spec_float).

Definition number_obj (n : number) : pyobj :=
  match n with
  | NInt z => PInt z
  | NFloat f => PFloat f
  end.

Class Runtime := {
  (** [int(s)]: [None] stands for [ValueError]. *)
  int_of_str : string → option Z;
  (** what [pandas.to_numeric] reads in a string: a number (an integer
      or a float, infinities included), or [None] when it is not one. *)
  numeric_of_str : string → option number;
  (** [sort_values(col, ascending=False)] on rows (label, count). *)
  sort_values_desc : list (string * Z) → list (string * Z);
  sort_values_desc_perm : ∀ l, sort_values_desc l ≡ₚ l;
  sort_values_desc_sorted : ∀ l, StronglySorted count_ge (sort_values_desc l);
}.

(** ** Model-Count Extractor *)

(** One probe of the loop body: [daily_json[version]["cars"]["models"]]. *)
Definition probe (daily_json : pyobj) (version : string) : outcome pyobj :=
  a ← getitem daily_json version;
  b ← getitem a "cars";
  getitem b "models".

(** The [for version in ("v2", "v1")] loop; each iteration returns the
    mapping it finds and otherwise falls through to the next. *)
Fixpoint probe_versions (daily_json : pyobj) (versions : list string)
  : outcome (gmap string pyobj) :=
  match versions with
  | [] => Returned ∅
  | version :: rest =>
      match try_except (probe daily_json version) (Returned PNone) with
      | Returned (PDict models) => Returned models
      | Returned _ => probe_versions daily_json rest
      | Raised e => Raised e
      | OutOfFuel => OutOfFuel
      end
  end.

Definition extract_car_models (daily_json : pyobj) : outcome (gmap string pyobj) :=
  if negb (isinstance_dict daily_json) then Returned ∅
  else probe_versions daily_json ["v2"; "v1"]%string.

(** ** Calendar dates *)

Module Calendar.

Record date : Type := mkdate { d_year : Z; d_month : Z; d_day : Z }.

Definition MINYEAR : Z := 1.
Definition MAXYEAR : Z := 9999.

Definition isleap (y : Z) : bool :=
  (y mod 4 =? 0) && (negb (y mod 100 =? 0) || (y mod 400 =? 0)).

Definition mdays (y m : Z) : Z :=
  if m =? 2 then (if isleap y then 29 else 28)
  else if (m =? 4) || (m =? 6) || (m =? 9) || (m =? 11) then 30
  else 31.

(** [calendar.monthrange(year, month)[1]]; a month outside 1..12 raises
    [IllegalMonthError], a [ValueError]. *)
Definition monthrange_days (y m : Z) : outcome Z :=
  if (1 <=? m) && (m <=? 12) then Returned (mdays y m) else Raised ValueError.

(** The arguments of [dt.date] are read as C integers. *)
Definition INT_MIN : Z := -2147483648.
Definition INT_MAX : Z := 2147483647.

Definition fits_c_int (z : Z) : bool := (INT_MIN <=? z) && (z <=? INT_MAX).

(** [dt.date(y, m, d)]: an argument that does not fit a C integer raises
    [OverflowError]; a year, month or day out of range raises
    [ValueError]. *)
Definition date_new (y m d : Z) : outcome date :=
  if negb (fits_c_int y && fits_c_int m && fits_c_int d) then Raised OverflowError
  else if (MINYEAR <=? y) && (y <=? MAXYEAR) && (1 <=? m) && (m <=? 12)
          && (1 <=? d) && (d <=? mdays y m)
  then Returned (mkdate y m d) else Raised ValueError.

Definition date_ltb (a b : date) : bool :=
  (d_year a <? d_year b)
  || ((d_year a =? d_year b)
      && ((d_month a <? d_month b)
          || ((d_month a =? d_month b) && (d_day a <? d_day b)))).

Definition date_leb (a b : date) : bool := negb (date_ltb b a).

(** [min(a, b)] *)
Definition date_min (a b : date) : date := if date_ltb b a then b else a.

(** [cur + dt.timedelta(days=1)]; stepping past 9999-12-31 raises
    [OverflowError]. *)
Definition date_add_day (cur : date) : outcome date :=
  let '(mkdate y m d) := cur in
  if d <? mdays y m then Returned (mkdate y m (d + 1))
  else if m <? 12 then Returned (mkdate y (m + 1) 1)
  else if y <? MAXYEAR then Returned (mkdate (y + 1) 1 1)
  else Raised OverflowError.

Definition zero_pad (width : nat) (z : Z) : string :=
  let s := pretty z in
  String.concat "" (replicate (width - String.length s) "0"%string) +:+ s.

(** [cur.strftime("%Y-%m-%d")], the year written with four digits *)
Definition strftime (cur : date) : string :=
  zero_pad 4 (d_year cur) +:+ "-" +:+ zero_pad 2 (d_month cur)
    +:+ "-" +:+ zero_pad 2 (d_day cur).

End Calendar.
Export Calendar.

(** ** The network *)

Record request : Type := GET { req_url : string; req_params : list (string * string) }.

(** What [requests.get] does with a request: it raises (no connection,
    timeout), or hands back a status code and a body, whose [json()] is
    a value or raises ([None]). *)
Inductive http_result : Type :=
| ConnectionFailed
| HttpResponse (status_code : Z) (json_body : option pyobj).

(** A computation that may issue requests: its outcome and the requests
    issued, in order. *)
Record Comp (A : Type) : Type := mkComp { result : outcome A; calls : list request }.
Arguments mkComp {A} result calls.
Arguments result {A} c.
Arguments calls {A} c.

Definition comp_bind {A B} (k : A → Comp B) (c : Comp A) : Comp B :=
  match result c with
  | Returned a => mkComp (result (k a)) (calls c ++ calls (k a))
  | Raised e => mkComp (Raised e) (calls c)
  | OutOfFuel => mkComp OutOfFuel (calls c)
  end.

#[global] Instance comp_ret : MRet Comp := λ A a, mkComp (Returned a) [].
#[global] Instance comp_mbind : MBind Comp := @comp_bind.

(** Code that issues no request. *)
Definition pure {A} (c : outcome A) : Comp A := mkComp c [].

(** [for x in xs: state = body(state, x)], stopping at the first raise. *)
Fixpoint for_each {A S : Type} (xs : list A) (body : S → A → outcome S) (s : S)
  : outcome S :=
  match xs with
  | [] => Returned s
  | x :: rest => s' ← body s x; for_each rest body s'
  end.

(** ** Data frames

    A frame is its number of rows and its columns by name; a cell is a
    Python object, held as an exact value.  pandas stores a numeric
    column, and a row read across numeric columns, in one machine type:
    an integer next to a float or a NaN is held as a 64-bit float.  That
    storage is not modelled.  It leaves unchanged which cells are null,
    infinite or numeric, and the value of every integer between -2^53
    and 2^53; an integer outside that range may be rounded by pandas
    where the model keeps it exact, so a statement about the value of a
    cell is made for integers within the range (see [float64_exact]). *)

Module Frame.

Record DataFrame : Type := mkframe {
  df_len : nat;
  df_cols : gmap string (list pyobj);
}.

(** [pd.DataFrame()] *)
Definition empty_frame : DataFrame := mkframe 0 ∅.

(** [df.empty]: no rows or no columns. *)
Definition df_empty (df : DataFrame) : bool :=
  (df_len df =? 0)%nat || bool_decide (df_cols df = ∅).

(** [pd.DataFrame({name: values})] *)
Definition frame_of_column (name : string) (values : list pyobj) : DataFrame :=
  mkframe (length values) {[ name := values ]}.

(** [df[name] = values]: the values must be as many as the rows (a frame
    without columns takes its length from them). *)
Definition df_setitem (df : DataFrame) (name : string) (values : list pyobj)
  : outcome DataFrame :=
  if bool_decide (df_cols df = ∅) && (df_len df =? 0)%nat
  then Returned (mkframe (length values) {[ name := values ]})
  else if (length values =? df_len df)%nat
  then Returned (mkframe (df_len df) (<[name := values]> (df_cols df)))
  else Raised ValueError.

(** [df.drop(columns=[name])] for a column that is present *)
Definition df_drop (df : DataFrame) (name : string) : DataFrame :=
  mkframe (df_len df) (delete name (df_cols df)).

(** [pd.DataFrame(rows)] for a list of dictionaries: the columns are the
    keys of all rows, a cell a row has no key for is NaN. *)
Definition frame_of_records (rows : list (gmap string pyobj)) : DataFrame :=
  mkframe (length rows)
    (set_to_map (λ k, (k, (λ row, default nan (row !! k)) <$> rows))
       (⋃ (dom <$> rows) : gset string)).

Definition isna (x : pyobj) : bool :=
  match x with
  | PNone | PFloat S754_nan => true
  | _ => false
  end.

Definition fill0 (x : pyobj) : pyobj := if isna x then PInt 0 else x.

(** [df.fillna(0)] and [series.fillna(0)] *)
Definition series_fillna0 (col : list pyobj) : list pyobj := fill0 <$> col.
Definition fillna0 (df : DataFrame) : DataFrame :=
  mkframe (df_len df) (series_fillna0 <$> df_cols df).

(** [series.tail(n)] and [df.tail(n)]: the last [n] rows, in order. *)
Definition series_tail (n : nat) (col : list pyobj) : list pyobj :=
  drop (length col - n) col.
Definition df_tail (n : nat) (df : DataFrame) : DataFrame :=
  mkframe (df_len df `min` n) (series_tail n <$> df_cols df).

(** [df.reset_index(drop=True)]: rows are already numbered from 0. *)
Definition reset_index (df : DataFrame) : DataFrame := df.

(** Row [i] of a frame, by column. *)
Definition df_row (df : DataFrame) (i : nat) : gmap string pyobj :=
  omap (λ col : list pyobj, col !! i) (df_cols df).

(** [df.iloc[-1]]: the last row, each cell as its column holds it. *)
Definition iloc_last (df : DataFrame) : outcome (gmap string pyobj) :=
  if (df_len df =? 0)%nat then Raised IndexError
  else Returned (df_row df (df_len df - 1)).

End Frame.
Export Frame.

(** ** The program *)

Definition MAKERS : list string :=
  ["total"; "byd"; "volvo"; "hyundai"; "tesla"; "geely"; "leapmotor"]%string.
Definition BASE_DAILY : string := "https://evstats.gr/api/dailyBevModels/".
Definition BASE_MAKER : string := "https://evstats.gr/api/makerMetrics".

(** [json.dumps] of a list of plain strings *)
Definition json_dumps (xs : list string) : string :=
  let quote := String (Ascii.ascii_of_nat 34) EmptyString in
  "[" +:+ String.concat ", " ((λ x, quote +:+ x +:+ quote) <$> xs) +:+ "]".

(** Rows kept per bucket by the trailing window. *)
Definition window (time_period : string) : nat :=
  if String.eqb time_period "month" then 18%nat
  else if String.eqb time_period "quarter" then 12%nat
  else 10%nat.

(** The month loop runs once per day of one month; this bound is never
    reached (see [aggregator_terminates]). *)
Definition loop_fuel : nat := 32.

Section program.

Context `{RT : Runtime}.
(** [TODAY], read once when the module is loaded. *)
Variable TODAY : date.
(** The remote server as [requests.get] sees it.  [st.cache_data] makes
    every fetch a function of its arguments within a session; the
    definitions below are the bodies that run when the cache misses. *)
Variable requests_get : request → http_result.

(** [int(c)] *)
Definition py_int (c : pyobj) : outcome Z :=
  match c with
  | PNone => Raised TypeError
  | PBool b => Returned (Z.b2z b)
  | PInt z => Returned z
  | PFloat f => float_trunc f
  | PStr s =>
      match int_of_str s with
      | Some z => Returned z
      | None => Raised ValueError
      end
  | PList _ | PDict _ => Raised TypeError
  end.

(** One cell of a column of mixed values under
    [pd.to_numeric(..., errors="coerce")]: numbers stay, a boolean counts
    as 0 or 1, a string is parsed, and whatever is not a number becomes
    NaN. *)
Definition to_numeric_cell (x : pyobj) : pyobj :=
  match x with
  | PNone => nan
  | PBool b => PInt (Z.b2z b)
  | PInt z => PInt z
  | PFloat f => PFloat f
  | PStr s => default nan (number_obj <$> numeric_of_str s)
  | PList _ | PDict _ => nan
  end.

(** [pd.to_numeric(col, errors="coerce")]: a column that holds booleans
    only is of a numeric type already and comes back as it is; any other
    column is converted cell by cell. *)
Definition to_numeric (col : list pyobj) : list pyobj :=
  if forallb isinstance_bool col then col else to_numeric_cell <$> col.

(** [r = requests.get(...)] followed by the status and [r.json()] *)
Definition send (req : request) : outcome (Z * outcome pyobj) :=
  match requests_get req with
  | ConnectionFailed => Raised RequestException
  | HttpResponse status body =>
      Returned (status,
                match body with
                | Some v => Returned v
                | None => Raised ValueError
                end)
  end.

(** *** Daily Record Fetcher *)

Definition fetch_daily (date_str : string) : Comp pyobj :=
  let url := BASE_DAILY +:+ date_str in
  mkComp
    (try_except
       ('(status_code, r_json) ← send (GET url []);
        if negb (status_code =? 200) then Returned PNone
        else
          data ← r_json;
          if isinstance_dict data then Returned data else Returned PNone)
       (Returned PNone))
    [GET url []].

(** *** Monthly Aggregator *)

(** The body of [for m, c in models.items()]. *)
Definition add_model (st : gmap string pyobj * gmap string Z) (item : string * pyobj)
  : outcome (gmap string pyobj * gmap string Z) :=
  let '(row, aggregated) := st in
  let '(m, c) := item in
  let row := <[m := c]> row in
  n ← py_int c;
  Returned (row, <[m := default 0 (aggregated !! m) + n]> aggregated).

(** The [while cur <= end] loop. *)
Fixpoint month_loop (fuel : nat) (cur end_ : date)
    (aggregated : gmap string Z) (daily_rows : list (gmap string pyobj))
  : Comp (gmap string Z * list (gmap string pyobj)) :=
  match fuel with
  | O => mkComp OutOfFuel []
  | S fuel =>
      if date_leb cur end_ then
        let date_str := strftime cur in
        js ← fetch_daily date_str;
        models ← pure (if truthy js then extract_car_models js else Returned ∅);
        '(row, aggregated) ←
          pure (for_each (map_to_list models) add_model
                  ({[ "Date"%string := PStr date_str ]}, aggregated));
        let daily_rows := daily_rows ++ [row] in
        cur ← pure (date_add_day cur);
        month_loop fuel cur end_ aggregated daily_rows
      else mret (aggregated, daily_rows)
  end.

Definition fetch_month_daily_aggregated (year month : Z)
  : Comp (DataFrame * list (string * Z)) :=
  last_day ← pure (monthrange_days year month);
  start ← pure (date_new year month 1);
  end_ ← pure (date_new year month last_day);
  if date_ltb TODAY start then mret (empty_frame, [])
  else
    let end_ := date_min end_ TODAY in
    '(aggregated, daily_rows) ← month_loop loop_fuel start end_ ∅ [];
    let daily_df := fillna0 (frame_of_records daily_rows) in
    let summary_df :=
      if bool_decide (aggregated = ∅) then []
      else sort_values_desc (map_to_list aggregated) in
    mret (daily_df, summary_df).

(** *** Maker-Metrics Fetcher and Normalizer *)

(** Unwrapping of a [data] nested under its own key. *)
Definition unwrap_data (data : pyobj) : pyobj :=
  match data with
  | PDict d =>
      match d !! "data"%string with
      | Some (PDict inner) => PDict inner
      | _ => data
      end
  | _ => data
  end.

(** [data] is a mapping: one series per maker, or nulls. *)
Definition column_of_mapping (periods : list pyobj) (data : gmap string pyobj)
    (maker : string) : list pyobj :=
  match dict_get data maker (PList []) with
  | PList series =>
      if (length series =? length periods)%nat then series
      else replicate (length periods) PNone
  | _ => replicate (length periods) PNone
  end.

(** [entry.get(maker)] *)
Definition entry_get (entry : pyobj) (maker : string) : outcome pyobj :=
  match entry with
  | PDict d => Returned (dict_get d maker PNone)
  | _ => Raised AttributeError
  end.

(** [data[i]] on a list *)
Definition list_getitem (data : list pyobj) (i : nat) : outcome pyobj :=
  match data !! i with
  | Some v => Returned v
  | None => Raised IndexError
  end.

(** [data] is a list of rows: one cell per period, read by position. *)
Definition column_of_rows (periods data : list pyobj) (maker : string)
  : outcome (list pyobj) :=
  for_each (seq 0 (length periods))
    (λ col i,
       try_except
         (entry ← list_getitem data i;
          v ← entry_get entry maker;
          Returned (col ++ [v]))
         (Returned (col ++ [PNone])))
    [].

(** Lines 160 to 183: the frame before columns are dropped or coerced. *)
Definition align (periods : list pyobj) (data : pyobj) : outcome DataFrame :=
  let df := frame_of_column "Period" periods in
  match data with
  | PDict data =>
      for_each MAKERS
        (λ df maker, df_setitem df maker (column_of_mapping periods data maker)) df
  | PList data =>
      for_each MAKERS
        (λ df maker,
           col ← column_of_rows periods data maker;
           df_setitem df maker col) df
  | _ => Returned df
  end.

Definition drop_unwanted (df : DataFrame) : DataFrame :=
  foldl (λ df col, if bool_decide (col ∈ dom (df_cols df)) then df_drop df col else df)
    df ["acc"; "bevshare"]%string.

Definition coerce_makers (df : DataFrame) : outcome DataFrame :=
  for_each MAKERS
    (λ df maker,
       match df_cols df !! maker with
       | Some col => df_setitem df maker (series_fillna0 (to_numeric col))
       | None => Returned df
       end) df.

(** The table before the trailing window is cut. *)
Definition normalize (periods : list pyobj) (data : pyobj) : outcome DataFrame :=
  df ← align periods data;
  coerce_makers (drop_unwanted df).

Definition truncate (time_period : string) (df : DataFrame) : DataFrame :=
  if String.eqb time_period "month" then df_tail 18 df
  else if String.eqb time_period "quarter" then df_tail 12 df
  else df_tail 10 df.

Definition fetch_maker_metrics (time_period : string) : Comp DataFrame :=
  if negb (bool_decide (time_period ∈ ["month"; "quarter"; "year"]%string))
  then mret empty_frame
  else
    let params := [("filterMakers", json_dumps MAKERS); ("timePeriod", time_period)]%string in
    mkComp
      (try_except
         ('(status_code, r_json) ← send (GET BASE_MAKER params);
          if negb (status_code =? 200) then Returned empty_frame
          else
            js ← r_json;
            match js with
            | PDict js =>
                let periods := dict_get js "periods" (PList []) in
                let data := unwrap_data (dict_get js "data" (PDict ∅)) in
                match periods with
                | PList periods =>
                    if negb (isinstance_dict data || isinstance_list data)
                    then Returned empty_frame
                    else
                      df ← normalize periods data;
                      Returned (reset_index (truncate time_period df))
                | _ => Returned empty_frame
                end
            | _ => Returned empty_frame
            end)
         (Returned empty_frame))
      [GET BASE_MAKER params].

(** *** Latest-Value Summarizer *)

Definition maker_latest_list (df : DataFrame) : outcome (list (string * Z)) :=
  if df_empty df then Returned []
  else
    latest ← iloc_last df;
    out ← for_each MAKERS
            (λ out maker,
               if bool_decide (maker ∈ dom (df_cols df)) then
                 cell ← getitem (PDict latest) maker;
                 v ← py_int cell;
                 Returned (out ++ [(maker, v)])
               else Returned out) [];
    (* [pd.DataFrame([])] has no column named Latest to sort by *)
    match out with
    | [] => Raised KeyError
    | _ => Returned (sort_values_desc out)
    end.

End program.

(** ** A runtime to run the examples with

    It reads plain decimal numerals and sorts by merging. *)

Fixpoint digits_value (s : string) (acc : Z) : option Z :=
  match s with
  | EmptyString => Some acc
  | String c rest =>
      let n := Z.of_nat (Ascii.nat_of_ascii c) in
      if (48 <=? n) && (n <=? 57) then digits_value rest (10 * acc + (n - 48))
      else None
  end.

Definition parse_decimal (s : string) : option Z :=
  match s with
  | EmptyString => None
  | String c rest =>
      if (Ascii.nat_of_ascii c =? 45)%nat
      then (if String.eqb rest "" then None else Z.opp <$> digits_value rest 0)
      else digits_value s 0
  end.

#[global] Instance count_ge_dec : RelDecision count_ge := λ a b, Z_ge_dec a.2 b.2.
#[global] Instance count_ge_trans : Transitive count_ge.
Proof. unfold count_ge. intros a b c. lia. Qed.
#[global] Instance count_ge_total : Total count_ge.
Proof. unfold count_ge. intros a b. lia. Qed.

Definition plain_runtime : Runtime := {|
  int_of_str := parse_decimal;
  numeric_of_str := λ s, NInt <$> parse_decimal s;
  sort_values_desc := merge_sort count_ge;
  sort_values_desc_perm := merge_sort_Permutation count_ge;
  sort_values_desc_sorted := StronglySorted_merge_sort count_ge;
|}.

(** ** Vocabulary of the specification *)

(** The descent path of the specification: [doc] is a mapping whose
    [tag] entry is a mapping whose "cars" entry is a mapping whose
    "models" entry is the mapping [models]. *)
Definition has_models (doc : pyobj) (tag : string) (models : gmap string pyobj) : Prop :=
  ∃ top a b : gmap string pyobj,
    doc = PDict top ∧ top !! tag = Some (PDict a) ∧
    a !! "cars"%string = Some (PDict b) ∧
    b !! "models"%string = Some (PDict models).

(** A daily document in the [tag] schema holding [models]. *)
Definition daily_document (tag : string) (models : gmap string pyobj) : pyobj :=
  PDict {[ tag := PDict {[ "cars"%string := PDict {[ "models"%string := PDict models ]} ]} ]}.

(** The ModelCountMap of a day: what the extractor finds in what the
    fetcher returns for it (empty when the fetch fails). *)
Definition day_models (requests_get : request → http_result) (cur : date)
  : gmap string pyobj :=
  match result (fetch_daily requests_get (strftime cur)) with
  | Returned js =>
      if truthy js then
        match extract_car_models js with
        | Returned models => models
        | _ => ∅
        end
      else ∅
  | _ => ∅
  end.

(** [int(c)] where it returns. *)
Definition int_or_zero `{RT : Runtime} (c : pyobj) : Z :=
  match py_int c with Returned n => n | _ => 0 end.

(** The count a day contributes for model [m]: [int] of its entry, and
    nothing when the day has no entry for [m]. *)
Definition count_of `{RT : Runtime} (m : string) (models : gmap string pyobj) : Z :=
  from_option int_or_zero 0 (models !! m).

(** Every count of the day has an integer value. *)
Definition countable `{RT : Runtime} (models : gmap string pyobj) : Prop :=
  ∀ m c, models !! m = Some c → ∃ n, py_int c = Returned n.

(** The days of a month that are not after [TODAY], in order. *)
Definition last_fetched_day (TODAY : date) (year month : Z) : Z :=
  d_day (date_min (mkdate year month (mdays year month)) TODAY).

Definition month_days (year month first : Z) (n : nat) : list date :=
  (λ i, mkdate year month (first + Z.of_nat i)) <$> seq 0 n.

Definition fetched_days (TODAY : date) (year month : Z) : list date :=
  if date_ltb TODAY (mkdate year month 1) then []
  else month_days year month 1 (Z.to_nat (last_fetched_day TODAY year month)).

(** A run the specification speaks about: a calendar month, a current
    date before the last date Python can represent, and counts that have
    an integer value on every day fetched. *)
Definition month_ok `{RT : Runtime} (TODAY : date)
    (requests_get : request → http_result) (year month : Z) : Prop :=
  MINYEAR <= year <= MAXYEAR ∧ 1 <= month <= 12 ∧
  date_ltb TODAY (mkdate MAXYEAR 12 31) = true ∧
  ∀ d, d ∈ fetched_days TODAY year month → countable (day_models requests_get d).

(** The row recorded for a day and the request issued for it. *)
Definition day_row (requests_get : request → http_result) (cur : date)
  : gmap string pyobj :=
  day_models requests_get cur ∪ {[ "Date"%string := PStr (strftime cur) ]}.

Definition day_request (cur : date) : request := GET (BASE_DAILY +:+ strftime cur) [].

(** The accumulator after one more day. *)
Definition add_counts `{RT : Runtime} (models : gmap string pyobj) (aggregated : gmap string Z)
  : gmap string Z :=
  merge (λ c total,
           match c with
           | Some c => Some (default 0 total + int_or_zero c)
           | None => total
           end) models aggregated.

(** The accumulator after the days [days]. *)
Definition month_totals `{RT : Runtime} (requests_get : request → http_result)
    (aggregated : gmap string Z) (days : list date) : gmap string Z :=
  foldl (λ aggregated d, add_counts (day_models requests_get d) aggregated) aggregated days.

(** The sum of model [m]'s per-day counts over [days]. *)
Definition month_sum `{RT : Runtime} (requests_get : request → http_result)
    (m : string) (days : list date) : Z :=
  foldr Z.add 0 ((λ d, count_of m (day_models requests_get d)) <$> days).

(** The ranked list a run returns, when it returns. *)
Definition summary_of (run : Comp (DataFrame * list (string * Z)))
  : option (list (string * Z)) :=
  match result run with
  | Returned (_, summary_df) => Some summary_df
  | _ => None
  end.

(** [month_ok], decided by running the fetches. *)
Definition countableb `{RT : Runtime} (models : gmap string pyobj) : bool :=
  forallb (λ item, match py_int item.2 with Returned _ => true | _ => false end)
    (map_to_list models).

Definition month_okb `{RT : Runtime} (TODAY : date)
    (requests_get : request → http_result) (year month : Z) : bool :=
  (MINYEAR <=? year) && (year <=? MAXYEAR) && (1 <=? month) && (month <=? 12)
  && date_ltb TODAY (mkdate MAXYEAR 12 31)
  && forallb (λ d, countableb (day_models requests_get d)) (fetched_days TODAY year month).

(** A server whose document for the first of March 2025 counts a model
    with [null]. *)
Definition null_count_server (req : request) : http_result :=
  if String.eqb (req_url req) (BASE_DAILY +:+ "2025-03-01")
  then HttpResponse 200 (Some (daily_document "v2" {[ "ModelA"%string := PNone ]}))
  else HttpResponse 404 None.

(** The server of the specification's example: two days answer, every
    other day does not. *)
Definition example_server (req : request) : http_result :=
  if String.eqb (req_url req) (BASE_DAILY +:+ "2025-03-01")
  then HttpResponse 200 (Some (daily_document "v2" {[ "ModelA"%string := PInt 2 ]}))
  else if String.eqb (req_url req) (BASE_DAILY +:+ "2025-03-02")
  then HttpResponse 200
         (Some (daily_document "v2" {[ "ModelA"%string := PInt 1; "ModelB"%string := PInt 5 ]}))
  else HttpResponse 404 None.

(** Every column of a frame has one cell per row. *)
Definition frame_wf (df : DataFrame) : Prop :=
  ∀ name col, df_cols df !! name = Some col → length col = df_len df.

(** The request the normaliser sends for a bucket. *)
Definition maker_request (time_period : string) : request :=
  GET BASE_MAKER
    [("filterMakers", json_dumps MAKERS); ("timePeriod", time_period)]%string.

(** The server answers the bucket with a document whose periods are the
    list [periods] and whose data, once unwrapped, is [data]. *)
Definition answers (requests_get : request → http_result) (time_period : string)
    (periods : list pyobj) (data : pyobj) : Prop :=
  ∃ js : gmap string pyobj,
    requests_get (maker_request time_period) = HttpResponse 200 (Some (PDict js)) ∧
    dict_get js "periods" (PList []) = PList periods ∧
    unwrap_data (dict_get js "data" (PDict ∅)) = data.

(** The upstream series of [maker] is a sequence with one value per
    period. *)
Definition aligned_series (periods : list pyobj) (data : gmap string pyobj)
    (maker : string) (series : list pyobj) : Prop :=
  data !! maker = Some (PList series) ∧ length series = length periods.

(** The column the alignment step gives a maker. *)
Definition aligned_column (periods : list pyobj) (data : pyobj) (maker : string)
  : list pyobj :=
  match data with
  | PDict data => column_of_mapping periods data maker
  | PList data =>
      match column_of_rows periods data maker with
      | Returned col => col
      | _ => []
      end
  | _ => []
  end.

(** The column of a maker after coercion to numbers. *)
Definition coerced `{RT : Runtime} (col : list pyobj) : list pyobj :=
  series_fillna0 (to_numeric col).

(** The integer value of [maker] at the last period row of [df]. *)
Definition last_value `{RT : Runtime} (df : DataFrame) (maker : string) (v : Z) : Prop :=
  ∃ col cell, df_cols df !! maker = Some col ∧ last col = Some cell ∧
              py_int cell = Returned v.

(** A maker-metrics document. *)
Definition metrics_document (periods : list pyobj) (data : pyobj) : pyobj :=
  PDict {[ "periods"%string := PList periods; "data"%string := data ]}.

(** The response of the specification's example. *)
Definition example_metrics_server (req : request) : http_result :=
  HttpResponse 200
    (Some (metrics_document [PStr "2024-01"; PStr "2024-02"]
             (PDict {[ "tesla"%string := PList [PInt 10; PInt 20] ]}))).

(** A response whose only value is a number too large for a float:
    Python decodes [1e999] as infinity. *)
Definition infinite_metrics_server (req : request) : http_result :=
  HttpResponse 200
    (Some (metrics_document [PStr "2024"]
             (PDict {[ "total"%string := PList [PFloat (S754_infinity false)] ]}))).

(** A response with twenty periods and one series of twenty values. *)
Definition twenty_periods_server (req : request) : http_result :=
  HttpResponse 200
    (Some (metrics_document ((λ i, PInt (Z.of_nat i)) <$> seq 0 20)
             (PDict {[ "total"%string := PList ((λ i, PInt (Z.of_nat i)) <$> seq 100 20) ]}))).

(** A response whose last value for tesla is too large for a float,
    next to integer values for total and byd. *)
Definition infinite_tesla_server (req : request) : http_result :=
  HttpResponse 200
    (Some (metrics_document [PStr "2024"]
             (PDict {[ "total"%string := PList [PInt 7];
                       "byd"%string := PList [PInt 3];
                       "tesla"%string := PList [PFloat (S754_infinity false)] ]}))).

(** A table with two periods and the columns of two makers. *)
Definition two_makers_frame : DataFrame :=
  mkframe 2
    {[ "Period"%string := [PStr "2024-01"; PStr "2024-02"];
       "tesla"%string := [PInt 10; PInt 20];
       "byd"%string := [PInt 0; PInt 35] ]}.

(** A number that is not NaN. *)
Definition is_number (x : pyobj) : bool :=
  match x with
  | PInt _ => true
  | PFloat S754_nan => false
  | PFloat _ => true
  | _ => false
  end.

(** What a cell of a numeric column can be: a boolean, or a number that
    is not NaN. *)
Definition is_numeric (x : pyobj) : bool := isinstance_bool x || is_number x.

(** A number that a 64-bit float column holds with its value unchanged:
    an integer between -2^53 and 2^53, or a float other than NaN. *)
Definition float64_exact (x : pyobj) : bool :=
  match x with
  | PInt z => (- 2 ^ 53 <=? z) && (z <=? 2 ^ 53)
  | PFloat S754_nan => false
  | PFloat _ => true
  | _ => false
  end.

(** ** The Model-Count Extractor probes v2, then v1 *)

Lemma probe_has_models doc tag models :
  probe doc tag = Returned (PDict models) ↔ has_models doc tag models.
Proof.
  unfold probe, has_models, getitem, mbind, outcome_bind, bind. split.
  - destruct doc as [| | | | | |top]; try discriminate.
    destruct (top !! tag) as [[| | | | | |a]|] eqn:Ht; try discriminate.
    destruct (a !! "cars"%string) as [[| | | | | |b]|] eqn:Ha; try discriminate.
    destruct (b !! "models"%string) as [v|] eqn:Hb; try discriminate.
    intros [= ->]. eauto 10.
  - intros (top & a & b & -> & -> & -> & ->). reflexivity.
Qed.

Lemma probe_step doc version rest :
  probe_versions doc (version :: rest) =
    match probe doc version with
    | Returned (PDict models) => Returned models
    | OutOfFuel => OutOfFuel
    | _ => probe_versions doc rest
    end.
Proof.
  simpl. destruct (probe doc version) as [[]| |]; reflexivity.
Qed.

Lemma probe_fuel doc version : probe doc version ≠ OutOfFuel.
Proof.
  unfold probe, getitem, mbind, outcome_bind, bind.
  repeat (case_match; try discriminate).
Qed.

Lemma probe_miss doc version rest :
  (∀ models, ¬ has_models doc version models) →
  probe_versions doc (version :: rest) = probe_versions doc rest.
Proof.
  intros Hno. rewrite probe_step.
  destruct (probe doc version) as [[| | | | | |d]| |] eqn:Hp; try reflexivity.
  - exfalso. apply (Hno d). by apply probe_has_models.
  - by destruct (probe_fuel doc version).
Qed.

Lemma probe_hit doc version rest models :
  has_models doc version models →
  probe_versions doc (version :: rest) = Returned models.
Proof.
  intros H%probe_has_models. rewrite probe_step. by rewrite H.
Qed.

Lemma has_models_dict doc tag models :
  has_models doc tag models → isinstance_dict doc = true.
Proof. by intros (top & a & b & -> & _). Qed.

Lemma extract_car_models_returns doc :
  ∃ models, extract_car_models doc = Returned models.
Proof.
  unfold extract_car_models. destruct (isinstance_dict doc); simpl negb; cbv iota; [|eauto].
  rewrite !probe_step.
  destruct (probe doc "v2") as [[]| |] eqn:H2; eauto;
    try (by destruct (probe_fuel doc "v2"));
    destruct (probe doc "v1") as [[]| |] eqn:H1; eauto;
    by destruct (probe_fuel doc "v1").
Qed.

(** C5: the extractor returns the mapping under v2 when there is one,
    else the mapping under v1 when there is one, else the empty map (so
    in particular for an input that is absent or not a mapping); and it
    returns for every input, it never raises. *)
Theorem extract_car_models_spec (doc : pyobj) :
  (∀ models, has_models doc "v2" models → extract_car_models doc = Returned models) ∧
  (∀ models, (∀ m2, ¬ has_models doc "v2" m2) → has_models doc "v1" models →
             extract_car_models doc = Returned models) ∧
  ((∀ m2, ¬ has_models doc "v2" m2) → (∀ m1, ¬ has_models doc "v1" m1) →
   extract_car_models doc = Returned ∅) ∧
  (isinstance_dict doc = false → extract_car_models doc = Returned ∅) ∧
  (∃ models, extract_car_models doc = Returned models).
Proof.
  split_and!.
  - intros models H. unfold extract_car_models.
    rewrite (has_models_dict _ _ _ H). simpl negb. cbv iota.
    by apply probe_hit.
  - intros models H2 H1. unfold extract_car_models.
    rewrite (has_models_dict _ _ _ H1). simpl negb. cbv iota.
    rewrite probe_miss by done. by apply probe_hit.
  - intros H2 H1. unfold extract_car_models.
    destruct (isinstance_dict doc); [|done]. simpl negb. cbv iota.
    by rewrite !probe_miss.
  - intros H. unfold extract_car_models. by rewrite H.
  - apply extract_car_models_returns.
Qed.

(** The document of the specification's example, read through the
    theorem. *)
Lemma extract_car_models_spec_witness :
  extract_car_models
    (daily_document "v2" {[ "ModelA"%string := PInt 3; "ModelB"%string := PInt 1 ]})
  = Returned {[ "ModelA"%string := PInt 3; "ModelB"%string := PInt 1 ]}.
Proof.
  apply (proj1 (extract_car_models_spec _)).
  unfold has_models, daily_document. do 3 eexists. split_and!; reflexivity.
Defined.

(** ** Computations and loops *)

Lemma pure_bind {A B} (a : A) (k : A → Comp B) : pure (Returned a) ≫= k = k a.
Proof.
  unfold mbind, comp_mbind, comp_bind, pure. simpl. by destruct (k a).
Qed.

Lemma pure_bind_raised {A B} e (k : A → Comp B) :
  pure (Raised e) ≫= k = mkComp (Raised e) [].
Proof. reflexivity. Qed.

Lemma comp_bind_returned {A B} (a : A) l (k : A → Comp B) :
  mkComp (Returned a) l ≫= k = mkComp (result (k a)) (l ++ calls (k a)).
Proof. reflexivity. Qed.

Lemma calls_bind {A B} (c : Comp A) (k : A → Comp B) r :
  r ∈ calls (c ≫= k) → r ∈ calls c ∨ ∃ a, result c = Returned a ∧ r ∈ calls (k a).
Proof.
  unfold mbind, comp_mbind, comp_bind. destruct (result c) as [a| |]; simpl; eauto.
  rewrite elem_of_app. intros [?|?]; eauto.
Qed.

Lemma for_each_app {A S} (xs ys : list A) (body : S → A → outcome S) s :
  for_each (xs ++ ys) body s = s' ← for_each xs body s; for_each ys body s'.
Proof.
  revert s. induction xs as [|x xs IH]; intros s; simpl; [done|].
  unfold mbind, outcome_bind, bind in *. destruct (body s x); auto.
Qed.

(** ** Dates *)

Lemma date_ltb_irrefl a : date_ltb a a = false.
Proof. unfold date_ltb. lia. Qed.

Lemma date_leb_trans a b c : date_leb a b = true → date_leb b c = true → date_leb a c = true.
Proof. unfold date_leb, date_ltb. lia. Qed.

Lemma date_add_day_later cur next :
  date_add_day cur = Returned next → date_ltb cur next = true.
Proof.
  destruct cur as [y m d]. unfold date_add_day, date_ltb. simpl.
  repeat case_match; intros [= <-]; simpl; lia.
Qed.

Lemma date_min_leb a b : date_leb (date_min a b) b = true.
Proof. unfold date_min, date_leb. case_match eqn:H; [apply negb_true_iff, date_ltb_irrefl|]. by rewrite H. Qed.

Lemma date_leb_same_month y m a b :
  date_leb (mkdate y m a) (mkdate y m b) = (a <=? b).
Proof. unfold date_leb, date_ltb. simpl. lia. Qed.

Lemma date_leb_next_month y m a b :
  date_leb (mkdate y (m + 1) a) (mkdate y m b) = false.
Proof. unfold date_leb, date_ltb. simpl. lia. Qed.

Lemma date_leb_next_year y m m' a b :
  date_leb (mkdate (y + 1) m' a) (mkdate y m b) = false.
Proof. unfold date_leb, date_ltb. simpl. lia. Qed.

Lemma mdays_range y m : 28 <= mdays y m <= 31.
Proof. unfold mdays. repeat case_match; lia. Qed.

Lemma date_new_valid y m d :
  MINYEAR <= y <= MAXYEAR → 1 <= m <= 12 → 1 <= d <= mdays y m →
  date_new y m d = Returned (mkdate y m d).
Proof.
  intros Hy Hm Hd. pose proof (mdays_range y m).
  unfold date_new, fits_c_int, INT_MIN, INT_MAX, MINYEAR, MAXYEAR in *.
  repeat match goal with
         | |- context [(?a <=? ?b)] =>
             replace (a <=? b) with true by (symmetry; apply Z.leb_le; lia)
         end.
  reflexivity.
Qed.

Lemma date_new_returned y m d r : date_new y m d = Returned r → r = mkdate y m d.
Proof. unfold date_new. repeat case_match; congruence. Qed.

Lemma date_new_fuel y m d : date_new y m d ≠ OutOfFuel.
Proof. unfold date_new. by repeat case_match. Qed.

Lemma monthrange_days_valid y m : 1 <= m <= 12 → monthrange_days y m = Returned (mdays y m).
Proof.
  intros Hm. unfold monthrange_days.
  by replace ((1 <=? m) && (m <=? 12)) with true by (symmetry; lia).
Qed.

(** ** The monthly aggregator, day by day *)

Section aggregator.

Context `{RT : Runtime} (TODAY : date) (requests_get : request → http_result).

Lemma fetch_daily_returns date_str :
  ∃ js, fetch_daily requests_get date_str
        = mkComp (Returned js) [GET (BASE_DAILY +:+ date_str) []].
Proof.
  unfold fetch_daily, send.
  destruct (requests_get _) as [|status [body|]]; simpl; eauto;
    destruct (negb (status =? 200)); simpl; eauto.
  destruct (isinstance_dict body); eauto.
Qed.

Lemma day_models_run cur :
  ∃ js, fetch_daily requests_get (strftime cur) = mkComp (Returned js) [day_request cur] ∧
        (if truthy js then extract_car_models js else Returned ∅)
        = Returned (day_models requests_get cur).
Proof.
  destruct (fetch_daily_returns (strftime cur)) as [js Hjs].
  exists js. split; [done|]. unfold day_models. rewrite Hjs. simpl.
  destruct (truthy js); [|done].
  by destruct (extract_car_models_returns js) as [models ->].
Qed.

(** The [for m, c in models.items()] loop over items with distinct keys. *)
Lemma for_each_add_model (items : list (string * pyobj)) row aggregated :
  NoDup items.*1 →
  (∀ m c, (m, c) ∈ items → ∃ n, py_int c = Returned n) →
  for_each items add_model (row, aggregated)
  = Returned (list_to_map items ∪ row, add_counts (list_to_map items) aggregated).
Proof.
  revert row aggregated.
  induction items as [|[m c] items IH]; intros row aggregated Hnd Hint.
  - simpl. f_equal. f_equal.
    + by rewrite (left_id_L ∅ (∪)).
    + apply map_eq. intros i. unfold add_counts.
      by rewrite lookup_merge, lookup_empty; destruct (aggregated !! i).
  - apply NoDup_cons in Hnd as [Hm Hnd].
    destruct (Hint m c) as [n Hn]; [left|].
    cbn [for_each add_model]. rewrite Hn.
    unfold mbind, outcome_bind. cbn [bind].
    rewrite IH; [|done|intros m' c' ?; apply (Hint m' c'); by right].
    assert (list_to_map items !! m = (None : option pyobj)) as Hfresh
      by by apply not_elem_of_list_to_map_1.
    f_equal. f_equal.
    + apply map_eq. intros i. cbn [list_to_map foldr]. simpl.
      rewrite !lookup_union. destruct (decide (i = m)) as [->|Hne].
      * by rewrite Hfresh, !lookup_insert_eq; destruct (row !! m).
      * by rewrite !lookup_insert_ne.
    + apply map_eq. intros i. unfold add_counts. cbn [list_to_map foldr]. simpl.
      rewrite !lookup_merge. destruct (decide (i = m)) as [->|Hne].
      * rewrite Hfresh, !lookup_insert_eq. simpl.
        unfold int_or_zero. by rewrite Hn.
      * by rewrite !lookup_insert_ne.
Qed.

Lemma items_loop_day (models : gmap string pyobj) row aggregated :
  countable models →
  for_each (map_to_list models) add_model (row, aggregated)
  = Returned (models ∪ row, add_counts models aggregated).
Proof.
  intros Hc. rewrite for_each_add_model.
  - by rewrite list_to_map_to_list.
  - apply NoDup_fst_map_to_list.
  - intros m c Hin%elem_of_map_to_list. eauto.
Qed.

(** One turn of the [while] loop. *)
Lemma month_loop_step fuel cur end_ aggregated rows :
  date_leb cur end_ = true →
  countable (day_models requests_get cur) →
  month_loop requests_get (S fuel) cur end_ aggregated rows
  = match date_add_day cur with
    | Returned next =>
        let rest := month_loop requests_get fuel next end_
                      (add_counts (day_models requests_get cur) aggregated)
                      (rows ++ [day_row requests_get cur]) in
        mkComp (result rest) (day_request cur :: calls rest)
    | Raised e => mkComp (Raised e) [day_request cur]
    | OutOfFuel => mkComp OutOfFuel [day_request cur]
    end.
Proof.
  intros Hle Hc. cbn [month_loop]. rewrite Hle.
  destruct (day_models_run cur) as (js & Hfetch & Hmodels).
  rewrite Hfetch, comp_bind_returned, Hmodels, pure_bind.
  rewrite items_loop_day by done.
  rewrite pure_bind. cbn beta iota.
  destruct (date_add_day cur) as [next| |]; [by rewrite pure_bind|done..].
Qed.

Lemma month_loop_done fuel cur end_ aggregated rows :
  date_leb cur end_ = false →
  month_loop requests_get (S fuel) cur end_ aggregated rows
  = mkComp (Returned (aggregated, rows)) [].
Proof. intros Hle. cbn [month_loop]. by rewrite Hle. Qed.

Lemma month_days_cons year month first n :
  month_days year month first (S n)
  = mkdate year month first :: month_days year month (first + 1) n.
Proof.
  unfold month_days. cbn [seq fmap list_fmap]. rewrite Z.add_0_r. f_equal.
  rewrite <- fmap_S_seq, <- list_fmap_compose. apply list_fmap_ext.
  intros _ i _. simpl. f_equal. lia.
Qed.

(** The loop over the days [first .. first + n - 1] of one month. *)
Lemma month_loop_range year month n : ∀ first fuel aggregated rows,
  (n < fuel)%nat →
  first + Z.of_nat n - 1 <= mdays year month →
  first + Z.of_nat n - 1 < mdays year month ∨ month < 12 ∨ year < MAXYEAR →
  (∀ d, d ∈ month_days year month first n → countable (day_models requests_get d)) →
  month_loop requests_get fuel (mkdate year month first)
    (mkdate year month (first + Z.of_nat n - 1)) aggregated rows
  = mkComp
      (Returned (month_totals requests_get aggregated (month_days year month first n),
                 rows ++ (day_row requests_get <$> month_days year month first n)))
      (day_request <$> month_days year month first n).
Proof.
  induction n as [|n IH]; intros first fuel aggregated rows Hfuel Hlast Hover Hc.
  - destruct fuel as [|fuel]; [lia|]. rewrite month_loop_done.
    + simpl. by rewrite app_nil_r.
    + rewrite date_leb_same_month. apply Z.leb_gt. lia.
  - destruct fuel as [|fuel]; [lia|].
    rewrite month_days_cons in *.
    rewrite month_loop_step; cycle 1.
    { rewrite date_leb_same_month. apply Z.leb_le. lia. }
    { apply Hc. left. }
    cbn [date_add_day]. destruct (first <? mdays year month) eqn:Hin.
    + replace (first + Z.of_nat (S n) - 1) with (first + 1 + Z.of_nat n - 1) by lia.
      rewrite IH; [|lia|lia|lia|intros; apply Hc; by right].
      cbn [result calls fmap list_fmap foldl month_totals].
      by rewrite <- app_assoc.
    + assert (n = 0%nat) as -> by lia.
      destruct fuel as [|fuel]; [lia|].
      destruct (month <? 12) eqn:Hm;
        [by rewrite month_loop_done by apply date_leb_next_month|].
      destruct (year <? MAXYEAR) eqn:Hy;
        [by rewrite month_loop_done by apply date_leb_next_year|].
      lia.
Qed.

Lemma py_int_fuel c : py_int c ≠ OutOfFuel.
Proof.
  destruct c as [| | |f| | |]; simpl; try discriminate.
  - by destruct f.
  - by destruct (int_of_str s).
Qed.

Lemma add_model_fuel items : ∀ st, for_each items add_model st ≠ OutOfFuel.
Proof.
  induction items as [|[m c] items IH]; intros [row aggregated]; [done|].
  cbn [for_each add_model]. pose proof (py_int_fuel c).
  destruct (py_int c) as [n| |]; [apply IH|done..].
Qed.

(** The loop bound is not reached on the days of one month. *)
Lemma month_loop_fuel year month n : ∀ first fuel aggregated rows,
  (n < fuel)%nat →
  first + Z.of_nat n - 1 <= mdays year month →
  result (month_loop requests_get fuel (mkdate year month first)
            (mkdate year month (first + Z.of_nat n - 1)) aggregated rows)
  ≠ OutOfFuel.
Proof.
  induction n as [|n IH]; intros first fuel aggregated rows Hfuel Hlast.
  - destruct fuel as [|fuel]; [lia|]. rewrite month_loop_done; [done|].
    rewrite date_leb_same_month. apply Z.leb_gt. lia.
  - destruct fuel as [|fuel]; [lia|]. cbn [month_loop].
    rewrite date_leb_same_month.
    replace (first <=? first + Z.of_nat (S n) - 1) with true
      by (symmetry; apply Z.leb_le; lia).
    destruct (day_models_run (mkdate year month first)) as (js & Hfetch & Hmodels).
    rewrite Hfetch, comp_bind_returned, Hmodels, pure_bind.
    pose proof (add_model_fuel
                  (map_to_list (day_models requests_get (mkdate year month first)))
                  ({[ "Date"%string := PStr (strftime (mkdate year month first)) ]},
                   aggregated)) as Hitems.
    destruct (for_each _ add_model _) as [[row aggregated']| |]; [|done..].
    rewrite pure_bind. cbn [date_add_day].
    destruct (first <? mdays year month) eqn:Hin.
    + rewrite pure_bind. cbn [result].
      replace (first + Z.of_nat (S n) - 1) with (first + 1 + Z.of_nat n - 1) by lia.
      apply IH; lia.
    + assert (n = 0%nat) as -> by lia.
      destruct fuel as [|fuel]; [lia|].
      destruct (month <? 12);
        [by rewrite pure_bind, month_loop_done by apply date_leb_next_month|].
      destruct (year <? MAXYEAR);
        [by rewrite pure_bind, month_loop_done by apply date_leb_next_year|done].
Qed.

(** Where the clamp puts the end of the loop. *)
Lemma clamp_in_month year month :
  date_ltb TODAY (mkdate year month 1) = false →
  date_min (mkdate year month (mdays year month)) TODAY
  = mkdate year month (last_fetched_day TODAY year month) ∧
  1 <= last_fetched_day TODAY year month <= mdays year month.
Proof.
  pose proof (mdays_range year month).
  unfold last_fetched_day, date_min, date_ltb. destruct TODAY as [y m d]. simpl.
  intros Hstart. case_match eqn:Hlt; simpl.
  - split; [f_equal|]; lia.
  - split; [done|lia].
Qed.

Lemma clamp_before_max year month :
  date_ltb TODAY (mkdate year month 1) = false →
  date_ltb TODAY (mkdate MAXYEAR 12 31) = true →
  year <= MAXYEAR →
  last_fetched_day TODAY year month < mdays year month ∨ month < 12 ∨ year < MAXYEAR.
Proof.
  pose proof (mdays_range year month).
  assert (month = 12 → mdays year month = 31) by (by intros ->).
  unfold last_fetched_day, date_min, date_ltb, MAXYEAR. destruct TODAY as [y m d]. simpl.
  intros Hstart Hmax Hy. case_match eqn:Hlt; simpl; lia.
Qed.

(** What a run returns, and which requests it issues. *)
Lemma fetch_month_run year month :
  month_ok TODAY requests_get year month →
  fetch_month_daily_aggregated TODAY requests_get year month
  = if date_ltb TODAY (mkdate year month 1)
    then mkComp (Returned (empty_frame, [])) []
    else
      let days := fetched_days TODAY year month in
      let aggregated := month_totals requests_get ∅ days in
      mkComp
        (Returned (fillna0 (frame_of_records (day_row requests_get <$> days)),
                   if bool_decide (aggregated = ∅) then []
                   else sort_values_desc (map_to_list aggregated)))
        (day_request <$> days).
Proof.
  intros (Hy & Hm & Hmax & Hc). pose proof (mdays_range year month).
  unfold fetch_month_daily_aggregated.
  rewrite monthrange_days_valid, pure_bind by exact Hm.
  rewrite !date_new_valid, !pure_bind by (try done; lia).
  unfold MINYEAR, MAXYEAR in *.
  unfold fetched_days in *.
  destruct (date_ltb TODAY (mkdate year month 1)) eqn:Hfuture; [done|].
  destruct (clamp_in_month year month Hfuture) as [-> Hrange].
  pose proof (clamp_before_max year month Hfuture Hmax) as Hover.
  set (n := Z.to_nat (last_fetched_day TODAY year month)) in *.
  assert (last_fetched_day TODAY year month = 1 + Z.of_nat n - 1) as Hn
    by (subst n; lia).
  assert (n < loop_fuel)%nat by (unfold loop_fuel; subst n; lia).
  rewrite Hn in *. clearbody n.
  rewrite month_loop_range; [|done|lia|unfold MAXYEAR in *; lia|done].
  by rewrite comp_bind_returned, app_nil_r.
Qed.

(** Whatever the month, the current date and the server, the aggregator
    returns or raises: the bound of the model's loop plays no part. *)
Lemma aggregator_terminates year month :
  result (fetch_month_daily_aggregated TODAY requests_get year month) ≠ OutOfFuel.
Proof.
  unfold fetch_month_daily_aggregated, monthrange_days.
  destruct ((1 <=? month) && (month <=? 12)); [|done]. rewrite pure_bind.
  pose proof (date_new_fuel year month 1) as Hstart.
  destruct (date_new year month 1) as [start| |] eqn:Hs; [|done..].
  apply date_new_returned in Hs as ->. rewrite pure_bind.
  pose proof (date_new_fuel year month (mdays year month)) as Hend.
  destruct (date_new year month (mdays year month)) as [end_| |] eqn:He; [|done..].
  apply date_new_returned in He as ->. rewrite pure_bind.
  destruct (date_ltb TODAY (mkdate year month 1)) eqn:Hfuture; [done|].
  destruct (clamp_in_month year month Hfuture) as [-> Hrange].
  pose proof (month_loop_fuel year month
                (Z.to_nat (last_fetched_day TODAY year month)) 1 loop_fuel ∅ []) as Hloop.
  pose proof (mdays_range year month).
  replace (1 + Z.of_nat (Z.to_nat (last_fetched_day TODAY year month)) - 1)
    with (last_fetched_day TODAY year month) in Hloop by lia.
  unfold mbind, comp_mbind, comp_bind.
  destruct (result (month_loop _ _ _ _ _ _)) as [[aggregated rows]| |]; [done|done|].
  exfalso. apply Hloop; [unfold loop_fuel; lia|lia|done].
Qed.

End aggregator.

(** ** Monthly totals *)

Section totals.

Context `{RT : Runtime} (requests_get : request → http_result).

Lemma lookup_add_counts models aggregated m :
  add_counts models aggregated !! m
  = match models !! m with
    | Some c => Some (default 0 (aggregated !! m) + int_or_zero c)
    | None => aggregated !! m
    end.
Proof.
  unfold add_counts. rewrite lookup_merge.
  by destruct (models !! m), (aggregated !! m).
Qed.

Lemma month_totals_cons aggregated d days :
  month_totals requests_get aggregated (d :: days)
  = month_totals requests_get (add_counts (day_models requests_get d) aggregated) days.
Proof. reflexivity. Qed.

Lemma month_totals_value m days : ∀ aggregated,
  default 0 (month_totals requests_get aggregated days !! m)
  = default 0 (aggregated !! m) + month_sum requests_get m days.
Proof.
  induction days as [|d days IH]; intros aggregated.
  - unfold month_sum. simpl. lia.
  - rewrite month_totals_cons, IH, lookup_add_counts. unfold month_sum, count_of. cbn [fmap list_fmap foldr].
    destruct (day_models requests_get d !! m); simpl; lia.
Qed.

Lemma month_totals_seen m days : ∀ aggregated,
  is_Some (month_totals requests_get aggregated days !! m)
  ↔ is_Some (aggregated !! m)
    ∨ ∃ d, d ∈ days ∧ is_Some (day_models requests_get d !! m).
Proof.
  induction days as [|d days IH]; intros aggregated.
  - simpl. split; [auto|]. intros [?|(d & Hd & _)]; [done|]. by apply elem_of_nil in Hd.
  - rewrite month_totals_cons, IH, lookup_add_counts. split.
    + intros [Hs|(d' & Hd' & Hs)].
      * destruct (day_models requests_get d !! m) eqn:Hd; [|by left].
        right. exists d. split; [left|by rewrite Hd].
      * right. exists d'. split; [by right|done].
    + intros [Hs|(d' & Hd' & Hs)].
      * left. by destruct (day_models requests_get d !! m).
      * apply elem_of_cons in Hd' as [->|Hd'].
        -- left. by destruct Hs as [c ->].
        -- right. eauto.
Qed.

(** An entry of the accumulator is a model seen on some day, with the
    sum of its counts. *)
Lemma month_totals_entry m n days :
  month_totals requests_get ∅ days !! m = Some n
  ↔ (∃ d, d ∈ days ∧ is_Some (day_models requests_get d !! m))
    ∧ n = month_sum requests_get m days.
Proof.
  pose proof (month_totals_value m days ∅) as Hv.
  pose proof (month_totals_seen m days ∅) as Hs.
  rewrite lookup_empty in Hv, Hs. simpl in Hv. split.
  - intros Hn. rewrite Hn in Hv, Hs. simpl in Hv. split; [|lia].
    destruct Hs as [[[? [=]]|?] _]; eauto.
  - intros [Hd ->]. destruct Hs as [_ [n Hn]]; [by right|].
    rewrite Hn in Hv. simpl in Hv. rewrite Hn. f_equal. lia.
Qed.

Lemma countableb_countable models : countableb models = true → countable models.
Proof.
  unfold countableb, countable. rewrite forallb_forall.
  intros H m c Hm. specialize (H (m, c)). simpl in H.
  destruct (py_int c); [eauto|..]; exfalso;
    (assert (false = true) as [=]; apply H, list_elem_of_In; by apply elem_of_map_to_list).
Qed.

Lemma month_okb_ok TODAY year month :
  month_okb TODAY requests_get year month = true →
  month_ok TODAY requests_get year month.
Proof.
  unfold month_okb, month_ok. rewrite !andb_true_iff, !Z.leb_le, forallb_forall.
  intros [[[[[? ?] ?] ?] ?] Hc]. split_and!; try done.
  intros d Hd. by apply countableb_countable, Hc, list_elem_of_In.
Qed.

(** The ranked list built from the accumulator. *)
Lemma summary_entries (aggregated : gmap string Z) :
  let summary := if bool_decide (aggregated = ∅) then []
                 else sort_values_desc (map_to_list aggregated) in
  StronglySorted count_ge summary ∧ NoDup summary.*1 ∧
  ∀ m n, (m, n) ∈ summary ↔ aggregated !! m = Some n.
Proof.
  simpl. case_bool_decide as Hempty.
  - subst. split_and!; [constructor|constructor|].
    intros m n. rewrite lookup_empty. split; [by intros ?%elem_of_nil|done].
  - split_and!.
    + apply sort_values_desc_sorted.
    + rewrite sort_values_desc_perm. apply NoDup_fst_map_to_list.
    + intros m n. rewrite sort_values_desc_perm. apply elem_of_map_to_list.
Qed.

End totals.

Lemma sorted_two `{RT : Runtime} (a b : string) (x y : Z) :
  x < y → sort_values_desc [(a, x); (b, y)] = [(b, y); (a, x)].
Proof.
  intros Hxy.
  pose proof (sort_values_desc_perm [(a, x); (b, y)]) as Hp.
  pose proof (sort_values_desc_sorted [(a, x); (b, y)]) as Hs.
  symmetry in Hp. apply Permutation_length_2_inv in Hp as [Hp|Hp]; [|done].
  rewrite Hp in Hs. apply StronglySorted_inv in Hs as [_ Hs].
  apply Forall_cons in Hs as [Hs _]. unfold count_ge in Hs. simpl in Hs. lia.
Qed.

(** C1: a run over a calendar month returns, and what it returns as the
    monthly summary is sorted by descending count, lists each model once,
    and pairs a model with a total exactly when some fetched day has an
    entry for the model, the total being the sum of the model's per-day
    counts over the fetched days (a day whose fetch failed counts
    nothing).  For the month of the specification's example the summary
    is ModelB with 5, then ModelA with 3. *)
Theorem monthly_summary_totals `{RT : Runtime} :
  (∀ TODAY requests_get year month,
     month_ok TODAY requests_get year month →
     ∃ daily_df summary_df,
       result (fetch_month_daily_aggregated TODAY requests_get year month)
       = Returned (daily_df, summary_df) ∧
       StronglySorted count_ge summary_df ∧
       NoDup summary_df.*1 ∧
       ∀ m n, (m, n) ∈ summary_df ↔
              (∃ d, d ∈ fetched_days TODAY year month ∧
                    is_Some (day_models requests_get d !! m)) ∧
              n = month_sum requests_get m (fetched_days TODAY year month)) ∧
  summary_of (fetch_month_daily_aggregated (mkdate 2025 3 2) example_server 2025 3)
  = Some [("ModelB"%string, 5); ("ModelA"%string, 3)].
Proof.
  split.
  - intros TODAY requests_get year month Hok.
    rewrite (fetch_month_run _ _ _ _ Hok). unfold fetched_days.
    destruct (date_ltb TODAY (mkdate year month 1)) eqn:Hfuture.
    + do 2 eexists. split; [done|]. split_and!; [constructor|constructor|].
      intros m n. split; [by intros ?%elem_of_nil|].
      intros [(d & Hd & _) _]. by apply elem_of_nil in Hd.
    + do 2 eexists. split; [done|].
      destruct (summary_entries
                  (month_totals requests_get ∅
                     (month_days year month 1
                        (Z.to_nat (last_fetched_day TODAY year month)))))
        as (Hsorted & Hnodup & Hin).
      split_and!; [done|done|].
      intros m n. rewrite Hin. apply month_totals_entry.
  - transitivity (Some (sort_values_desc [("ModelA"%string, 3); ("ModelB"%string, 5)])).
    + vm_compute. reflexivity.
    + f_equal. by apply sorted_two.
Qed.

Lemma monthly_summary_totals_witness :
  ∃ daily_df summary_df,
    result (@fetch_month_daily_aggregated plain_runtime (mkdate 2025 3 2) example_server 2025 3)
    = Returned (daily_df, summary_df) ∧
    StronglySorted count_ge summary_df ∧
    NoDup summary_df.*1 ∧
    ∀ m n, (m, n) ∈ summary_df ↔
           (∃ d, d ∈ fetched_days (mkdate 2025 3 2) 2025 3 ∧
                 is_Some (day_models example_server d !! m)) ∧
           n = @month_sum plain_runtime example_server m
                 (fetched_days (mkdate 2025 3 2) 2025 3).
Proof.
  apply (proj1 (@monthly_summary_totals plain_runtime)).
  apply month_okb_ok. vm_compute. reflexivity.
Defined.

(** ** Future months and the clamp *)

Section clamp.

Context `{RT : Runtime} (requests_get : request → http_result).

(** Every request of the loop is for a date between [cur] and [end_]. *)
Lemma month_loop_calls fuel : ∀ cur end_ aggregated rows req,
  req ∈ calls (month_loop requests_get fuel cur end_ aggregated rows) →
  ∃ d, req = day_request d ∧ date_leb cur d = true ∧ date_leb d end_ = true.
Proof.
  induction fuel as [|fuel IH]; intros cur end_ aggregated rows req.
  - simpl. by intros ?%elem_of_nil.
  - cbn [month_loop]. destruct (date_leb cur end_) eqn:Hle;
      [|simpl; by intros ?%elem_of_nil].
    destruct (fetch_daily_returns requests_get (strftime cur)) as [js Hjs].
    intros [Hin|(js' & _ & Hin)]%calls_bind.
    { rewrite Hjs in Hin. apply list_elem_of_singleton in Hin as ->.
      exists cur. split_and!; [done| |done].
      unfold date_leb. by rewrite date_ltb_irrefl. }
    apply calls_bind in Hin as [Hin|(models & _ & Hin)]; [by apply elem_of_nil in Hin|].
    apply calls_bind in Hin as [Hin|([row agg] & _ & Hin)]; [by apply elem_of_nil in Hin|].
    apply calls_bind in Hin as [Hin|(next & Hnext & Hin)]; [by apply elem_of_nil in Hin|].
    apply IH in Hin as (d & -> & Hd1 & Hd2). simpl in Hnext.
    apply date_add_day_later in Hnext.
    exists d. split_and!; [done| |done].
    revert Hnext Hd1. unfold date_leb, date_ltb. lia.
Qed.

End clamp.

(** C6: when the first day of the month is after the current date, the
    run returns the two empty results and issues no request; and
    whatever the month, every request a run issues is for a day of that
    month that is not after the current date. *)
Theorem future_month_and_clamp `{RT : Runtime} (TODAY : date)
    (requests_get : request → http_result) (year month : Z) :
  (MINYEAR <= year <= MAXYEAR → 1 <= month <= 12 →
   date_ltb TODAY (mkdate year month 1) = true →
   fetch_month_daily_aggregated TODAY requests_get year month
   = mkComp (Returned (empty_frame, [])) []) ∧
  (∀ req, req ∈ calls (fetch_month_daily_aggregated TODAY requests_get year month) →
     ∃ d, req = day_request d ∧ d_year d = year ∧ d_month d = month ∧
          date_leb d TODAY = true).
Proof.
  split.
  - intros Hy Hm Hfuture. pose proof (mdays_range year month).
    unfold fetch_month_daily_aggregated.
    rewrite monthrange_days_valid, pure_bind by exact Hm.
    rewrite !date_new_valid, !pure_bind by (try done; lia).
    by rewrite Hfuture.
  - intros req. unfold fetch_month_daily_aggregated.
    intros [Hin|(last_day & Hlast & Hin)]%calls_bind; [by apply elem_of_nil in Hin|].
    apply calls_bind in Hin as [Hin|(start & Hstart & Hin)]; [by apply elem_of_nil in Hin|].
    apply calls_bind in Hin as [Hin|(end_ & Hend & Hin)]; [by apply elem_of_nil in Hin|].
    destruct (date_ltb TODAY start); [by apply elem_of_nil in Hin|].
    apply calls_bind in Hin as [Hin|([agg rows] & _ & Hin)]; [|by apply elem_of_nil in Hin].
    apply month_loop_calls in Hin as (d & -> & Hd1 & Hd2).
    simpl in Hstart, Hend.
    apply date_new_returned in Hstart as ->. apply date_new_returned in Hend as ->.
    exists d. split; [done|].
    pose proof (date_min_leb (mkdate year month last_day) TODAY) as Hmin.
    pose proof (date_leb_trans _ _ _ Hd2 Hmin) as Htoday.
    split_and!; [| |done].
    + revert Hd1 Hd2. unfold date_min, date_leb, date_ltb. simpl.
      destruct d as [y m k], TODAY as [ty tm td]. simpl. case_match; simpl; lia.
    + revert Hd1 Hd2. unfold date_min, date_leb, date_ltb. simpl.
      destruct d as [y m k], TODAY as [ty tm td]. simpl. case_match; simpl; lia.
Qed.

(** April 2025 seen from the second of March 2025. *)
Lemma future_month_and_clamp_witness :
  @fetch_month_daily_aggregated plain_runtime (mkdate 2025 3 2) example_server 2025 4
  = mkComp (Returned (empty_frame, [])) [].
Proof.
  apply (proj1 (@future_month_and_clamp plain_runtime (mkdate 2025 3 2) example_server 2025 4));
    [unfold MINYEAR, MAXYEAR; lia | lia | reflexivity].
Defined.

(** C4, at a document that counts a model with [null]: [int(None)]
    raises in the aggregator's loop and nothing catches it, so the run
    ends in a [TypeError] instead of a result. *)
Theorem aggregator_raises_on_null_count `{RT : Runtime} :
  result (fetch_month_daily_aggregated (mkdate 2025 3 2) null_count_server 2025 3)
  = Raised TypeError.
Proof. vm_compute. reflexivity. Qed.

(** ** The daily matrix *)

Lemma frame_of_records_lookup (rows : list (gmap string pyobj)) k col :
  df_cols (frame_of_records rows) !! k = Some col
  ↔ (∃ row, row ∈ rows ∧ k ∈ dom row) ∧
    col = (λ row, default nan (row !! k)) <$> rows.
Proof.
  unfold frame_of_records. cbn [df_cols].
  rewrite lookup_set_to_map by (by intros ? ? _ _ [= ->]).
  setoid_rewrite elem_of_union_list. split.
  - intros (k' & (X & HX & Hk) & [= <- <-]).
    apply list_elem_of_fmap in HX as (row & -> & Hrow). eauto.
  - intros [(row & Hrow & Hk) ->]. exists k. split; [|done].
    exists (dom row). split; [|done]. apply list_elem_of_fmap. eauto.
Qed.

Lemma fillna0_lookup df k col :
  df_cols (fillna0 df) !! k = Some col
  ↔ ∃ col0, df_cols df !! k = Some col0 ∧ col = fill0 <$> col0.
Proof.
  unfold fillna0, series_fillna0. cbn [df_cols]. rewrite lookup_fmap.
  destruct (df_cols df !! k) as [col0|]; simpl; split.
  - intros [= <-]. eauto.
  - by intros (? & [= <-] & ->).
  - done.
  - by intros (? & [=] & _).
Qed.

Lemma df_row_lookup df i k cell :
  df_row df i !! k = Some cell
  ↔ ∃ col, df_cols df !! k = Some col ∧ col !! i = Some cell.
Proof.
  unfold df_row. rewrite lookup_omap_Some.
  split; intros (col & ? & ?); eauto.
Qed.

(** The matrix built from the rows of the days [days]. *)
Lemma daily_matrix (requests_get : request → http_result) (days : list date) :
  let daily_df := fillna0 (frame_of_records (day_row requests_get <$> days)) in
  df_len daily_df = length days ∧
  (∀ i, (i < df_len daily_df)%nat → dom (df_row daily_df i) = dom (df_cols daily_df)) ∧
  (∀ i d m, days !! i = Some d → m ∈ dom (df_cols daily_df) →
            df_row daily_df i !! m
            = Some (fill0 (default nan (day_row requests_get d !! m)))) ∧
  (∀ m, m ≠ "Date"%string →
        (m ∈ dom (df_cols daily_df)
         ↔ ∃ d, d ∈ days ∧ m ∈ dom (day_models requests_get d))).
Proof.
  set (rows := day_row requests_get <$> days).
  assert (∀ k col, df_cols (fillna0 (frame_of_records rows)) !! k = Some col →
                   col = (λ d, fill0 (default nan (day_row requests_get d !! k))) <$> days)
    as Hcol.
  { intros k col (col0 & [_ ->]%frame_of_records_lookup & ->)%fillna0_lookup.
    unfold rows. by rewrite <- !list_fmap_compose. }
  cbv zeta. split_and!.
  - unfold rows. cbn [df_len fillna0 frame_of_records]. by rewrite length_fmap.
  - intros i Hi. apply set_eq. intros k. rewrite !elem_of_dom. split.
    + intros [cell (col & Hk & _)%df_row_lookup]. eauto.
    + intros [col Hk]. pose proof (Hcol _ _ Hk) as ->.
      cbn [df_len fillna0 frame_of_records] in Hi. unfold rows in Hi.
      rewrite length_fmap in Hi.
      destruct (lookup_lt_is_Some_2 days i Hi) as [d Hd].
      exists (fill0 (default nan (day_row requests_get d !! k))).
      apply df_row_lookup. eexists. split; [done|].
      by rewrite list_lookup_fmap, Hd.
  - intros i d m Hd [col Hm]%elem_of_dom. pose proof (Hcol _ _ Hm) as ->.
    apply df_row_lookup. eexists. split; [done|].
    by rewrite list_lookup_fmap, Hd.
  - intros m Hm. rewrite elem_of_dom. split.
    + intros [col (col0 & [(row & Hrow & Hk) _]%frame_of_records_lookup & _)%fillna0_lookup].
      unfold rows in Hrow. apply list_elem_of_fmap in Hrow as (d & -> & Hd).
      exists d. split; [done|]. unfold day_row in Hk.
      rewrite dom_union_L, dom_singleton_L in Hk.
      by apply elem_of_union in Hk as [Hk|Hk%elem_of_singleton].
    + intros (d & Hd & Hk). eexists. apply fillna0_lookup. eexists. split; [|done].
      apply frame_of_records_lookup. split; [|done].
      exists (day_row requests_get d). split.
      * unfold rows. apply list_elem_of_fmap. eauto.
      * unfold day_row. rewrite dom_union_L. apply elem_of_union. by left.
Qed.

(** C8: in the matrix a run returns there is one row per fetched day,
    every row has exactly the columns of the matrix, a model that a day
    has no entry for has the cell 0 in that day's row, and the columns
    other than the date column are exactly the models that some fetched
    day has an entry for. *)
Theorem daily_matrix_dense `{RT : Runtime} (TODAY : date)
    (requests_get : request → http_result) (year month : Z) :
  month_ok TODAY requests_get year month →
  ∃ daily_df summary_df,
    result (fetch_month_daily_aggregated TODAY requests_get year month)
    = Returned (daily_df, summary_df) ∧
    let days := fetched_days TODAY year month in
    df_len daily_df = length days ∧
    (∀ i, (i < df_len daily_df)%nat → dom (df_row daily_df i) = dom (df_cols daily_df)) ∧
    (∀ i d m, days !! i = Some d → m ∈ dom (df_cols daily_df) → m ≠ "Date"%string →
              day_models requests_get d !! m = None →
              df_row daily_df i !! m = Some (PInt 0)) ∧
    (∀ m, m ≠ "Date"%string →
          (m ∈ dom (df_cols daily_df)
           ↔ ∃ d, d ∈ days ∧ m ∈ dom (day_models requests_get d))).
Proof.
  intros Hok. rewrite (fetch_month_run _ _ _ _ Hok). unfold fetched_days.
  destruct (date_ltb TODAY (mkdate year month 1)) eqn:Hfuture.
  - do 2 eexists. split; [done|]. simpl. split_and!; [done|lia| |].
    + intros i d m Hd. by rewrite lookup_nil in Hd.
    + intros m _. rewrite dom_empty_L. split; [by intros ?%not_elem_of_empty|].
      intros (d & Hd & _). by apply elem_of_nil in Hd.
  - do 2 eexists. split; [done|].
    destruct (daily_matrix requests_get
                (month_days year month 1 (Z.to_nat (last_fetched_day TODAY year month))))
      as (Hlen & Hrows & Hcell & Hcols).
    cbv zeta. split_and!; [done|done| |done].
    intros i d m Hd Hm Hne Hnone. rewrite (Hcell i d m Hd Hm).
    unfold day_row. rewrite lookup_union, Hnone, lookup_singleton_ne by done.
    reflexivity.
Qed.

Lemma daily_matrix_dense_witness :
  ∃ daily_df summary_df,
    result (@fetch_month_daily_aggregated plain_runtime (mkdate 2025 3 2) example_server 2025 3)
    = Returned (daily_df, summary_df) ∧
    let days := fetched_days (mkdate 2025 3 2) 2025 3 in
    df_len daily_df = length days ∧
    (∀ i, (i < df_len daily_df)%nat → dom (df_row daily_df i) = dom (df_cols daily_df)) ∧
    (∀ i d m, days !! i = Some d → m ∈ dom (df_cols daily_df) → m ≠ "Date"%string →
              day_models example_server d !! m = None →
              df_row daily_df i !! m = Some (PInt 0)) ∧
    (∀ m, m ≠ "Date"%string →
          (m ∈ dom (df_cols daily_df)
           ↔ ∃ d, d ∈ days ∧ m ∈ dom (day_models example_server d))).
Proof.
  apply (@daily_matrix_dense plain_runtime).
  apply month_okb_ok. vm_compute. reflexivity.
Defined.

(** ** The maker-metrics table, column by column *)

Section normalizer.

Context `{RT : Runtime}.

(** A loop of column assignments, each with one value per row. *)
Lemma setitem_loop (f : string → list pyobj) (body : DataFrame → string → outcome DataFrame)
    (makers : list string) : ∀ df,
  (∀ df maker, body df maker = df_setitem df maker (f maker)) →
  (∀ maker, length (f maker) = df_len df) →
  df_cols df ≠ ∅ →
  ∃ df', for_each makers body df = Returned df' ∧
         df_len df' = df_len df ∧
         ∀ name, df_cols df' !! name
                 = if bool_decide (name ∈ makers) then Some (f name)
                   else df_cols df !! name.
Proof.
  induction makers as [|maker makers IH]; intros df Hbody Hlen Hcols.
  - exists df. split_and!; [done|done|]. intros name.
    by rewrite bool_decide_eq_false_2 by apply not_elem_of_nil.
  - cbn [for_each]. rewrite Hbody. unfold df_setitem.
    rewrite (bool_decide_eq_false_2 _ Hcols). cbn [andb].
    rewrite Hlen, Nat.eqb_refl.
    unfold mbind, outcome_bind. cbn [bind].
    destruct (IH (mkframe (df_len df) (<[maker := f maker]> (df_cols df))))
      as (df' & -> & Hlen' & Hlook); [done|done|apply insert_non_empty|].
    exists df'. split_and!; [done|done|].
    intros name. rewrite Hlook. cbn [df_cols].
    destruct (decide (name = maker)) as [->|Hne].
    + rewrite lookup_insert_eq.
      rewrite (bool_decide_eq_true_2 (maker ∈ maker :: makers)) by left.
      by case_bool_decide.
    + rewrite lookup_insert_ne by done.
      rewrite (bool_decide_ext (name ∈ maker :: makers) (name ∈ makers)); [done|].
      rewrite elem_of_cons. split; [by intros [?|?]|by right].
Qed.

Lemma column_of_rows_returns periods data maker :
  ∃ col, column_of_rows periods data maker = Returned col ∧
         length col = length periods.
Proof.
  unfold column_of_rows.
  assert (∀ n start col0, ∃ col,
            for_each (seq start n)
              (λ col i,
                 try_except
                   (entry ← list_getitem data i;
                    v ← entry_get entry maker;
                    Returned (col ++ [v]))
                   (Returned (col ++ [PNone]))) col0
            = Returned col ∧ length col = (length col0 + n)%nat) as Hloop.
  { induction n as [|n IH]; intros start col0.
    - exists col0. split; [done|lia].
    - cbn [seq for_each].
      assert (∃ v, try_except
                     (entry ← list_getitem data start;
                      v ← entry_get entry maker;
                      Returned (col0 ++ [v]))
                     (Returned (col0 ++ [PNone]))
                   = Returned (col0 ++ [v])) as [v ->].
      { unfold list_getitem, entry_get, mbind, outcome_bind, bind.
        destruct (data !! start) as [[| | | | | |d]|]; simpl; eauto. }
      destruct (IH (S start) (col0 ++ [v])) as (col & Hcol & Hlen).
      exists col. split; [exact Hcol|]. rewrite Hlen, length_app. simpl. lia. }
  destruct (Hloop (length periods) 0%nat []) as (col & -> & Hlen). eauto.
Qed.

Lemma column_of_mapping_length periods data maker :
  length (column_of_mapping periods data maker) = length periods.
Proof.
  unfold column_of_mapping.
  destruct (dict_get data maker (PList [])) as [| | | | |series|];
    try apply length_replicate.
  destruct (length series =? length periods)%nat eqn:Hlen;
    [by apply Nat.eqb_eq|apply length_replicate].
Qed.

Lemma column_of_mapping_aligned periods data maker series :
  aligned_series periods data maker series →
  column_of_mapping periods data maker = series.
Proof.
  intros [Hs Hl]. unfold column_of_mapping, dict_get.
  rewrite Hs. simpl. by rewrite Hl, Nat.eqb_refl.
Qed.

Lemma column_of_mapping_misaligned periods data maker :
  (∀ series, ¬ aligned_series periods data maker series) →
  column_of_mapping periods data maker = replicate (length periods) PNone.
Proof.
  intros Hmis. unfold column_of_mapping, dict_get.
  destruct (data !! maker) as [[| | | | |series|]|] eqn:Hs; simpl; try reflexivity.
  - destruct (length series =? length periods)%nat eqn:Hl; [|reflexivity].
    destruct (Hmis series). split; [exact Hs|]. by apply Nat.eqb_eq.
  - by destruct (length periods).
Qed.

Lemma to_numeric_length col : length (to_numeric col) = length col.
Proof. unfold to_numeric. case_match; [done|by rewrite length_fmap]. Qed.

Lemma coerced_length col : length (coerced col) = length col.
Proof. unfold coerced, series_fillna0. by rewrite length_fmap, to_numeric_length. Qed.

Lemma coerced_nulls n : coerced (replicate n PNone) = replicate n (PInt 0).
Proof.
  unfold coerced, series_fillna0, to_numeric. destruct n as [|n]; [reflexivity|].
  cbn [replicate forallb isinstance_bool andb]. by rewrite !fmap_cons, !fmap_replicate.
Qed.

(** A cell of a coerced column is a boolean of a column of booleans, or
    a converted cell with its null filled. *)
Lemma coerced_elem_cases col cell :
  cell ∈ coerced col →
  (∃ b, cell = PBool b) ∨ ∃ x, cell = fill0 (to_numeric_cell x).
Proof.
  unfold coerced, series_fillna0, to_numeric.
  destruct (forallb isinstance_bool col) eqn:Hbools.
  - intros (x & -> & Hx)%list_elem_of_fmap. left.
    rewrite forallb_forall in Hbools. apply list_elem_of_In, Hbools in Hx.
    destruct x; try discriminate Hx. eauto.
  - rewrite <- list_fmap_compose. intros (x & -> & _)%list_elem_of_fmap. eauto.
Qed.

Lemma aligned_column_length periods data maker :
  isinstance_dict data || isinstance_list data = true →
  length (aligned_column periods data maker) = length periods.
Proof.
  destruct data as [| | | | |l|d]; try discriminate; intros _; simpl.
  - by destruct (column_of_rows_returns periods l maker) as (col & -> & ?).
  - apply column_of_mapping_length.
Qed.

(** Lines 160 to 183. *)
Lemma align_spec periods data :
  isinstance_dict data || isinstance_list data = true →
  ∃ df, align periods data = Returned df ∧
        df_len df = length periods ∧
        ∀ name, df_cols df !! name
                = if bool_decide (name ∈ MAKERS)
                  then Some (aligned_column periods data name)
                  else if bool_decide (name = "Period"%string) then Some periods
                  else None.
Proof.
  intros Hshape.
  assert (∀ body,
            (∀ df maker, body df maker
                         = df_setitem df maker (aligned_column periods data maker)) →
            ∃ df, for_each MAKERS body (frame_of_column "Period" periods) = Returned df ∧
                  df_len df = length periods ∧
                  ∀ name, df_cols df !! name
                          = if bool_decide (name ∈ MAKERS)
                            then Some (aligned_column periods data name)
                            else if bool_decide (name = "Period"%string) then Some periods
                            else None) as Hloop.
  { intros body Hbody.
    destruct (setitem_loop (aligned_column periods data) body MAKERS
                (frame_of_column "Period" periods) Hbody)
      as (df & Hdf & Hlen & Hlook).
    - intros maker. by apply aligned_column_length.
    - apply insert_non_empty.
    - exists df. split_and!; [done|done|]. intros name. rewrite Hlook.
      case_bool_decide; [done|]. unfold frame_of_column. cbn [df_cols].
      case_bool_decide as Hp.
      + subst. apply lookup_singleton_eq.
      + by apply lookup_singleton_ne. }
  destruct data as [| | | | |l|d]; try discriminate; unfold align; apply Hloop.
  - intros df maker. simpl.
    by destruct (column_of_rows_returns periods l maker) as (col & -> & ?).
  - done.
Qed.

Lemma period_not_maker : "Period"%string ∉ MAKERS.
Proof. apply (bool_decide_unpack ("Period"%string ∉ MAKERS)). by vm_compute. Qed.

Lemma makers_nodup : NoDup MAKERS.
Proof. apply (bool_decide_unpack (NoDup MAKERS)). by vm_compute. Qed.

(** The loop of lines 191 to 193. *)
Lemma coerce_loop (makers : list string) : ∀ df,
  NoDup makers → frame_wf df → df_cols df ≠ ∅ →
  ∃ df', for_each makers
           (λ df maker,
              match df_cols df !! maker with
              | Some col => df_setitem df maker (series_fillna0 (to_numeric col))
              | None => Returned df
              end) df
         = Returned df' ∧
         df_len df' = df_len df ∧
         ∀ name, df_cols df' !! name
                 = if bool_decide (name ∈ makers) then coerced <$> df_cols df !! name
                   else df_cols df !! name.
Proof.
  induction makers as [|maker makers IH]; intros df Hnd Hwf Hcols.
  - exists df. split_and!; [done|done|]. intros name.
    by rewrite bool_decide_eq_false_2 by apply not_elem_of_nil.
  - apply NoDup_cons in Hnd as [Hfresh Hnd]. cbn [for_each].
    assert (∃ df1, match df_cols df !! maker with
                   | Some col => df_setitem df maker (series_fillna0 (to_numeric col))
                   | None => Returned df
                   end = Returned df1 ∧
                   df_len df1 = df_len df ∧ frame_wf df1 ∧ df_cols df1 ≠ ∅ ∧
                   df_cols df1 !! maker = coerced <$> df_cols df !! maker ∧
                   ∀ name, name ≠ maker → df_cols df1 !! name = df_cols df !! name)
      as (df1 & -> & Hlen1 & Hwf1 & Hcols1 & Hmaker & Hother).
    { destruct (df_cols df !! maker) as [col|] eqn:Hcol; [|by exists df].
      unfold df_setitem. rewrite (bool_decide_eq_false_2 _ Hcols). cbn [andb].
      fold (coerced col). rewrite coerced_length, (Hwf _ _ Hcol), Nat.eqb_refl.
      eexists. split_and!; [done|done| |apply insert_non_empty| |].
      - intros name c. cbn [df_cols df_len]. destruct (decide (name = maker)) as [->|?].
        + rewrite lookup_insert_eq. intros [= <-]. rewrite coerced_length. eauto.
        + rewrite lookup_insert_ne by done. apply Hwf.
      - cbn [df_cols]. by rewrite lookup_insert_eq.
      - intros name ?. cbn [df_cols]. by rewrite lookup_insert_ne. }
    unfold mbind, outcome_bind. cbn [bind].
    destruct (IH df1 Hnd Hwf1 Hcols1) as (df' & -> & Hlen' & Hlook).
    exists df'. split_and!; [done|congruence|].
    intros name. rewrite Hlook. destruct (decide (name = maker)) as [->|Hne].
    + rewrite (bool_decide_eq_false_2 _ Hfresh).
      by rewrite (bool_decide_eq_true_2 (maker ∈ maker :: makers)) by left.
    + rewrite (bool_decide_ext (name ∈ maker :: makers) (name ∈ makers)).
      * by rewrite Hother.
      * rewrite elem_of_cons. split; [by intros [?|?]|by right].
Qed.

Lemma drop_unwanted_absent df :
  df_cols df !! "acc"%string = None → df_cols df !! "bevshare"%string = None →
  drop_unwanted df = df.
Proof.
  intros Hacc Hbev. unfold drop_unwanted. cbn [foldl].
  rewrite (bool_decide_eq_false_2 ("acc"%string ∈ dom (df_cols df)))
    by by apply not_elem_of_dom.
  by rewrite (bool_decide_eq_false_2 ("bevshare"%string ∈ dom (df_cols df)))
    by by apply not_elem_of_dom.
Qed.

(** The table before the window is cut: the periods, and for every
    maker of the allow-list its aligned column coerced to numbers. *)
Lemma normalize_spec periods data :
  isinstance_dict data || isinstance_list data = true →
  ∃ df, normalize periods data = Returned df ∧
        df_len df = length periods ∧
        frame_wf df ∧
        ∀ name, df_cols df !! name
                = if bool_decide (name ∈ MAKERS)
                  then Some (coerced (aligned_column periods data name))
                  else if bool_decide (name = "Period"%string) then Some periods
                  else None.
Proof.
  intros Hshape. unfold normalize.
  destruct (align_spec periods data Hshape) as (df0 & -> & Hlen0 & Hlook0).
  unfold mbind, outcome_bind. cbn [bind].
  rewrite drop_unwanted_absent by (by rewrite Hlook0).
  destruct (coerce_loop MAKERS df0) as (df & Hdf & Hlen & Hlook).
  - apply makers_nodup.
  - intros name col. rewrite Hlook0, Hlen0. repeat case_bool_decide; intros [= <-].
    + by apply aligned_column_length.
    + done.
  - intros Hempty. pose proof (Hlook0 "Period"%string) as HP.
    rewrite Hempty, lookup_empty in HP. discriminate HP.
  - exists df. unfold coerce_makers. split_and!; [done|congruence| |].
    + intros name col. rewrite Hlook, Hlook0, Hlen, Hlen0.
      repeat case_bool_decide; intros [= <-]; [|done].
      rewrite coerced_length. by apply aligned_column_length.
    + intros name. rewrite Hlook, Hlook0. by repeat case_bool_decide.
Qed.

End normalizer.

(** ** The trailing window *)

Lemma truncate_window time_period df :
  time_period ∈ ["month"; "quarter"; "year"]%string →
  truncate time_period df = df_tail (window time_period) df.
Proof.
  rewrite !elem_of_cons, elem_of_nil. by intros [->|[->|[->|[]]]].
Qed.

Lemma series_tail_suffix n (col : list pyobj) :
  ∃ older, col = older ++ series_tail n col ∧
           length (series_tail n col) = (length col `min` n)%nat.
Proof.
  unfold series_tail. exists (take (length col - n) col). split.
  - by rewrite take_drop.
  - rewrite length_drop. lia.
Qed.

Lemma series_tail_replicate n k (x : pyobj) :
  series_tail n (replicate k x) = replicate (k `min` n) x.
Proof.
  unfold series_tail. rewrite length_replicate, drop_replicate. f_equal. lia.
Qed.

Lemma df_tail_lookup n df name :
  df_cols (df_tail n df) !! name = series_tail n <$> df_cols df !! name.
Proof. unfold df_tail. cbn [df_cols]. apply lookup_fmap. Qed.

Lemma df_tail_wf n df : frame_wf df → frame_wf (df_tail n df).
Proof.
  intros Hwf name col. rewrite df_tail_lookup.
  destruct (df_cols df !! name) as [col0|] eqn:Hcol; [|done].
  intros [= <-]. destruct (series_tail_suffix n col0) as (_ & _ & ->).
  cbn [df_tail df_len]. by rewrite (Hwf _ _ Hcol).
Qed.

(** ** Runs of the normaliser *)

Section metrics_runs.

Context `{RT : Runtime} (requests_get : request → http_result).

Lemma fetch_maker_metrics_run time_period periods data :
  time_period ∈ ["month"; "quarter"; "year"]%string →
  answers requests_get time_period periods data →
  isinstance_dict data || isinstance_list data = true →
  ∃ full, normalize periods data = Returned full ∧
          result (fetch_maker_metrics requests_get time_period)
          = Returned (df_tail (window time_period) full).
Proof.
  intros Hin (js & Hreq & Hper & Hdata) Hshape.
  destruct (normalize_spec periods data Hshape) as (full & Hfull & _).
  exists full. split; [done|].
  unfold fetch_maker_metrics. rewrite (bool_decide_eq_true_2 _ Hin).
  cbn [negb result]. unfold send. fold (maker_request time_period).
  rewrite Hreq. cbn. rewrite Hper, Hdata, Hshape. cbn.
  rewrite Hfull. cbn. unfold reset_index. by rewrite truncate_window.
Qed.

(** A run returns the empty frame or the windowed table of an answer. *)
Lemma fetch_maker_metrics_result time_period :
  result (fetch_maker_metrics requests_get time_period) = Returned empty_frame ∨
  ∃ periods data full,
    time_period ∈ ["month"; "quarter"; "year"]%string ∧
    answers requests_get time_period periods data ∧
    isinstance_dict data || isinstance_list data = true ∧
    normalize periods data = Returned full ∧
    result (fetch_maker_metrics requests_get time_period)
    = Returned (df_tail (window time_period) full).
Proof.
  destruct (decide (time_period ∈ ["month"; "quarter"; "year"]%string)) as [Hin|Hout];
    [|left; unfold fetch_maker_metrics; by rewrite (bool_decide_eq_false_2 _ Hout)].
  destruct (requests_get (maker_request time_period)) as [|status [[| | | | | |js]|]] eqn:Hreq;
    try (left; unfold fetch_maker_metrics; rewrite (bool_decide_eq_true_2 _ Hin);
         cbn [negb result]; unfold send; fold (maker_request time_period);
         rewrite Hreq; cbn; by repeat case_match).
  destruct (negb (status =? 200)) eqn:Hstatus.
  { left. unfold fetch_maker_metrics. rewrite (bool_decide_eq_true_2 _ Hin).
    cbn [negb result]. unfold send. fold (maker_request time_period).
    rewrite Hreq. cbn. by rewrite Hstatus. }
  assert (status = 200) as -> by (apply negb_false_iff in Hstatus; lia).
  destruct (dict_get js "periods" (PList [])) as [| | | | |periods|] eqn:Hper;
    try (left; unfold fetch_maker_metrics; rewrite (bool_decide_eq_true_2 _ Hin);
         cbn [negb result]; unfold send; fold (maker_request time_period);
         rewrite Hreq; cbn; by rewrite Hper).
  destruct (isinstance_dict (unwrap_data (dict_get js "data" (PDict ∅)))
            || isinstance_list (unwrap_data (dict_get js "data" (PDict ∅)))) eqn:Hshape.
  - right.
    destruct (fetch_maker_metrics_run time_period periods
                (unwrap_data (dict_get js "data" (PDict ∅)))) as (full & ? & ?);
      [done|by exists js|done|].
    exists periods, (unwrap_data (dict_get js "data" (PDict ∅))), full.
    split_and!; try done. by exists js.
  - left. unfold fetch_maker_metrics. rewrite (bool_decide_eq_true_2 _ Hin).
    cbn [negb result]. unfold send. fold (maker_request time_period).
    rewrite Hreq. cbn. by rewrite Hper, Hshape.
Qed.

End metrics_runs.

(** C2: every table the normaliser returns is the empty frame or has,
    next to its period column, a column of the same length for every
    maker of the allow-list.  At the alignment step a maker whose
    upstream series is a sequence with one value per period gets that
    series, and a maker whose series is missing, is not a sequence, or
    is shorter or longer than the periods gets nulls, one per period;
    in the list-of-rows form the column has one cell per period too.
    No value of such a series reaches the table returned: there the
    maker's column holds only the fill value that the coercion puts in
    place of a null. *)
Theorem maker_series_length `{RT : Runtime} (requests_get : request → http_result)
    (time_period : string) :
  (∃ df, result (fetch_maker_metrics requests_get time_period) = Returned df ∧
         (df = empty_frame ∨
          ∀ maker, maker ∈ MAKERS →
            ∃ period_col maker_col,
              df_cols df !! "Period"%string = Some period_col ∧
              df_cols df !! maker = Some maker_col ∧
              length maker_col = length period_col)) ∧
  (∀ periods (data : gmap string pyobj) maker, maker ∈ MAKERS →
     ∃ df col,
       align periods (PDict data) = Returned df ∧
       df_cols df !! "Period"%string = Some periods ∧
       df_cols df !! maker = Some col ∧
       length col = length periods ∧
       (∀ series, aligned_series periods data maker series → col = series) ∧
       ((∀ series, ¬ aligned_series periods data maker series) →
        col = replicate (length periods) PNone)) ∧
  (∀ periods (rows : list pyobj) maker, maker ∈ MAKERS →
     ∃ df col,
       align periods (PList rows) = Returned df ∧
       df_cols df !! "Period"%string = Some periods ∧
       df_cols df !! maker = Some col ∧
       length col = length periods) ∧
  (∀ periods (data : gmap string pyobj) maker,
     time_period ∈ ["month"; "quarter"; "year"]%string →
     answers requests_get time_period periods (PDict data) →
     maker ∈ MAKERS →
     (∀ series, ¬ aligned_series periods data maker series) →
     ∃ df,
       result (fetch_maker_metrics requests_get time_period) = Returned df ∧
       df_cols df !! maker
       = Some (replicate (length periods `min` window time_period) (PInt 0))).
Proof.
  split_and!.
  - destruct (fetch_maker_metrics_result requests_get time_period)
      as [->|(periods & data & full & Hin & _ & Hshape & Hfull & ->)]; [eauto|].
    eexists. split; [reflexivity|]. right. intros maker Hmaker.
    destruct (normalize_spec periods data Hshape) as (full' & Hfull' & Hlen & Hwf & Hlook).
    assert (full' = full) as -> by congruence.
    exists (series_tail (window time_period) periods),
           (series_tail (window time_period) (coerced (aligned_column periods data maker))).
    rewrite !df_tail_lookup, !Hlook.
    rewrite (bool_decide_eq_true_2 _ Hmaker).
    rewrite (bool_decide_eq_false_2 _ period_not_maker).
    rewrite (bool_decide_eq_true_2 ("Period"%string = "Period"%string)) by reflexivity.
    split_and!; [reflexivity|reflexivity|].
    destruct (series_tail_suffix (window time_period) periods) as (_ & _ & ->).
    destruct (series_tail_suffix (window time_period)
                (coerced (aligned_column periods data maker))) as (_ & _ & ->).
    rewrite coerced_length, aligned_column_length by exact Hshape. reflexivity.
  - intros periods data maker Hmaker.
    destruct (align_spec periods (PDict data)) as (df & Hdf & Hlen & Hlook); [reflexivity|].
    exists df, (column_of_mapping periods data maker).
    rewrite !Hlook, (bool_decide_eq_true_2 _ Hmaker).
    rewrite (bool_decide_eq_false_2 _ period_not_maker).
    rewrite (bool_decide_eq_true_2 ("Period"%string = "Period"%string)) by reflexivity.
    split_and!; [exact Hdf|reflexivity|reflexivity|apply column_of_mapping_length| |].
    + intros series Hs. by apply column_of_mapping_aligned.
    + apply column_of_mapping_misaligned.
  - intros periods rows maker Hmaker.
    destruct (align_spec periods (PList rows)) as (df & Hdf & Hlen & Hlook); [reflexivity|].
    exists df, (aligned_column periods (PList rows) maker).
    rewrite !Hlook, (bool_decide_eq_true_2 _ Hmaker).
    rewrite (bool_decide_eq_false_2 _ period_not_maker).
    rewrite (bool_decide_eq_true_2 ("Period"%string = "Period"%string)) by reflexivity.
    split_and!; [exact Hdf|reflexivity|reflexivity|by apply aligned_column_length].
  - intros periods data maker Hin Hanswer Hmaker Hmis.
    destruct (fetch_maker_metrics_run requests_get time_period periods (PDict data))
      as (full & Hfull & Hrun); [exact Hin|exact Hanswer|reflexivity|].
    destruct (normalize_spec periods (PDict data)) as (full' & Hfull' & _ & _ & Hlook);
      [reflexivity|].
    assert (full' = full) as -> by congruence.
    eexists. split; [exact Hrun|].
    rewrite df_tail_lookup, Hlook, (bool_decide_eq_true_2 _ Hmaker).
    cbn [aligned_column fmap option_fmap option_map].
    by rewrite column_of_mapping_misaligned, coerced_nulls, series_tail_replicate.
Qed.

(** The byd column of the specification's example at the alignment
    step. *)
Lemma maker_series_length_witness :
  ∃ df col,
    align [PStr "2024-01"; PStr "2024-02"]
      (PDict {[ "tesla"%string := PList [PInt 10; PInt 20] ]}) = Returned df ∧
    df_cols df !! "Period"%string = Some [PStr "2024-01"; PStr "2024-02"] ∧
    df_cols df !! "byd"%string = Some col ∧
    length col = 2%nat ∧
    (∀ series,
       aligned_series [PStr "2024-01"; PStr "2024-02"]
         {[ "tesla"%string := PList [PInt 10; PInt 20] ]} "byd" series →
       col = series) ∧
    ((∀ series,
        ¬ aligned_series [PStr "2024-01"; PStr "2024-02"]
            {[ "tesla"%string := PList [PInt 10; PInt 20] ]} "byd" series) →
     col = [PNone; PNone]).
Proof.
  apply (proj1 (proj2 (@maker_series_length plain_runtime example_metrics_server "month"))).
  apply (bool_decide_unpack _). vm_compute. exact I.
Defined.

(** C3 as stated fails: in the table returned for the example the byd
    column is not made of nulls. *)
Lemma example_byd_column_is_not_null :
  ¬ ∃ df,
      result (@fetch_maker_metrics plain_runtime example_metrics_server "month")
      = Returned df ∧
      df_cols df !! "byd"%string = Some [PNone; PNone] ∧
      df_cols df !! "tesla"%string = Some [PInt 10; PInt 20].
Proof.
  intros (df & Hdf & Hbyd & _). vm_compute in Hdf. injection Hdf as <-.
  vm_compute in Hbyd. discriminate Hbyd.
Qed.

(** C3, amended: for the example response the byd column is two nulls
    after the alignment step and two zeros in the table returned, the
    numeric coercion having replaced the nulls; the tesla column is 10
    and 20 at both points. *)
Theorem example_maker_columns `{RT : Runtime} (time_period : string) :
  time_period ∈ ["month"; "quarter"; "year"]%string →
  (∃ aligned,
     align [PStr "2024-01"; PStr "2024-02"]
       (PDict {[ "tesla"%string := PList [PInt 10; PInt 20] ]}) = Returned aligned ∧
     df_cols aligned !! "byd"%string = Some [PNone; PNone] ∧
     df_cols aligned !! "tesla"%string = Some [PInt 10; PInt 20]) ∧
  (∃ df,
     result (fetch_maker_metrics example_metrics_server time_period) = Returned df ∧
     df_cols df !! "byd"%string = Some [PInt 0; PInt 0] ∧
     df_cols df !! "tesla"%string = Some [PInt 10; PInt 20]).
Proof.
  intros Hin. split.
  - eexists. split_and!; [vm_compute; reflexivity|vm_compute; reflexivity..].
  - rewrite !elem_of_cons, elem_of_nil in Hin.
    destruct Hin as [->|[->|[->|[]]]];
      (eexists; split_and!; [vm_compute; reflexivity|vm_compute; reflexivity..]).
Qed.

Lemma example_maker_columns_witness :
  (∃ aligned,
     align [PStr "2024-01"; PStr "2024-02"]
       (PDict {[ "tesla"%string := PList [PInt 10; PInt 20] ]}) = Returned aligned ∧
     df_cols aligned !! "byd"%string = Some [PNone; PNone] ∧
     df_cols aligned !! "tesla"%string = Some [PInt 10; PInt 20]) ∧
  (∃ df,
     result (@fetch_maker_metrics plain_runtime example_metrics_server "month")
     = Returned df ∧
     df_cols df !! "byd"%string = Some [PInt 0; PInt 0] ∧
     df_cols df !! "tesla"%string = Some [PInt 10; PInt 20]).
Proof.
  apply (@example_maker_columns plain_runtime "month").
  apply (bool_decide_unpack _). vm_compute. exact I.
Defined.

(** C7: the table returned for a bucket has at most 18 rows for month,
    12 for quarter and 10 for year, and so has each of its columns; and
    when the server answers, each column of the table returned is the
    end of the same column of the table before the cut, in the same
    order, as long as the window allows. *)
Theorem trailing_window `{RT : Runtime} (requests_get : request → http_result)
    (time_period : string) :
  time_period ∈ ["month"; "quarter"; "year"]%string →
  (window "month" = 18 ∧ window "quarter" = 12 ∧ window "year" = 10)%nat ∧
  (∃ df, result (fetch_maker_metrics requests_get time_period) = Returned df ∧
         (df_len df ≤ window time_period)%nat ∧
         ∀ name col, df_cols df !! name = Some col →
                     (length col ≤ window time_period)%nat) ∧
  (∀ periods data,
     answers requests_get time_period periods data →
     isinstance_dict data || isinstance_list data = true →
     ∃ full df,
       normalize periods data = Returned full ∧
       result (fetch_maker_metrics requests_get time_period) = Returned df ∧
       df_len df = (df_len full `min` window time_period)%nat ∧
       dom (df_cols df) = dom (df_cols full) ∧
       ∀ name col, df_cols full !! name = Some col →
         ∃ older kept,
           col = older ++ kept ∧ df_cols df !! name = Some kept ∧
           length kept = (length col `min` window time_period)%nat).
Proof.
  intros Hin. split_and!; [reflexivity..| |].
  - destruct (fetch_maker_metrics_result requests_get time_period)
      as [->|(periods & data & full & _ & _ & _ & _ & ->)].
    + eexists. split; [reflexivity|]. split; [simpl; lia|].
      intros name col. unfold empty_frame. cbn [df_cols]. by rewrite lookup_empty.
    + eexists. split; [reflexivity|]. split; [simpl; lia|].
      intros name col. rewrite df_tail_lookup.
      destruct (df_cols full !! name) as [col0|]; [|done].
      intros [= <-].
      destruct (series_tail_suffix (window time_period) col0) as (_ & _ & ->). lia.
  - intros periods data Hanswer Hshape.
    destruct (fetch_maker_metrics_run requests_get time_period periods data)
      as (full & Hfull & Hrun); [exact Hin|exact Hanswer|exact Hshape|].
    exists full, (df_tail (window time_period) full).
    split_and!; [exact Hfull|exact Hrun|reflexivity| |].
    + unfold df_tail. cbn [df_cols]. apply dom_fmap_L.
    + intros name col Hcol.
      destruct (series_tail_suffix (window time_period) col) as (older & Hsplit & Hlen).
      exists older, (series_tail (window time_period) col).
      split_and!; [exact Hsplit| |exact Hlen].
      by rewrite df_tail_lookup, Hcol.
Qed.

Lemma trailing_window_witness :
  ∃ df, result (@fetch_maker_metrics plain_runtime twenty_periods_server "month") = Returned df ∧
        (df_len df ≤ window "month")%nat ∧
        ∀ name col, df_cols df !! name = Some col → (length col ≤ window "month")%nat.
Proof.
  assert ("month"%string ∈ ["month"; "quarter"; "year"]%string) as Hin
    by (apply (bool_decide_unpack _); vm_compute; exact I).
  apply (proj1 (proj2 (@trailing_window plain_runtime twenty_periods_server "month" Hin))).
Defined.

(** ** The latest-value ranking *)

Section latest.

Context `{RT : Runtime} (df : DataFrame).

Hypothesis df_rows : df_len df ≠ 0%nat.
Hypothesis df_wf : frame_wf df.

Lemma latest_cell maker col :
  df_cols df !! maker = Some col →
  df_row df (df_len df - 1) !! maker = last col ∧ is_Some (last col).
Proof.
  intros Hcol. pose proof (df_wf _ _ Hcol) as Hlen.
  assert (df_row df (df_len df - 1) !! maker = last col) as ->.
  { unfold df_row. rewrite lookup_omap, Hcol. simpl.
    rewrite last_lookup, Hlen. f_equal. lia. }
  split; [done|]. rewrite last_lookup. apply lookup_lt_is_Some. lia.
Qed.

(** The [for maker in MAKERS] loop of the summariser. *)
Lemma latest_loop (makers : list string) : ∀ out0,
  (∀ maker col cell, maker ∈ makers → df_cols df !! maker = Some col →
                     last col = Some cell → ∃ v, py_int cell = Returned v) →
  ∃ out,
    for_each makers
      (λ out maker,
         if bool_decide (maker ∈ dom (df_cols df)) then
           cell ← getitem (PDict (df_row df (df_len df - 1))) maker;
           v ← py_int cell;
           Returned (out ++ [(maker, v)])
         else Returned out) out0
    = Returned (out0 ++ out) ∧
    out.*1 = filter (λ maker, maker ∈ dom (df_cols df)) makers ∧
    ∀ maker v, (maker, v) ∈ out ↔ maker ∈ makers ∧ last_value df maker v.
Proof.
  induction makers as [|maker makers IH]; intros out0 Hint.
  - exists []. split_and!; [by rewrite app_nil_r|done|].
    intros maker v. split; [by intros ?%elem_of_nil|by intros [?%elem_of_nil _]].
  - cbn [for_each]. case_bool_decide as Hcol.
    + apply elem_of_dom in Hcol as [col Hcol].
      destruct (latest_cell maker col Hcol) as [Hrow [cell Hcell]].
      destruct (Hint maker col cell) as [v Hv]; [left|done|done|].
      unfold getitem. rewrite Hrow, Hcell.
      unfold mbind, outcome_bind. cbn [bind]. rewrite Hv.
      destruct (IH (out0 ++ [(maker, v)])) as (out & Hout & Hfst & Hmem).
      { intros maker' col' cell' ?. apply Hint. by right. }
      exists ((maker, v) :: out). split_and!.
      * replace (out0 ++ (maker, v) :: out) with ((out0 ++ [(maker, v)]) ++ out)
          by (by rewrite <- app_assoc).
        exact Hout.
      * rewrite filter_cons_True by (apply elem_of_dom; eauto).
        cbn [fmap list_fmap]. simpl. by rewrite <- Hfst.
      * intros maker' v'. rewrite !elem_of_cons, Hmem. split.
        -- intros [[= -> ->]|[? ?]]; [|by auto].
           split; [by left|]. exists col, cell. done.
        -- intros [[->|Hin] Hlast]; [|by auto].
           left. destruct Hlast as (col' & cell' & Hcol' & Hcell' & Hv').
           congruence.
    + destruct (IH out0) as (out & Hout & Hfst & Hmem).
      { intros maker' col' cell' ?. apply Hint. by right. }
      exists out. split_and!; [exact Hout| |].
      * by rewrite filter_cons_False.
      * intros maker' v'. rewrite Hmem, elem_of_cons. split; [by intros [? ?]; auto|].
        intros [[->|Hin] Hlast]; [|done].
        destruct Hlast as (col' & _ & Hcol' & _). destruct Hcol.
        apply elem_of_dom. eauto.
Qed.

End latest.

(** The ranking of a table with periods. *)
Lemma latest_ranking `{RT : Runtime} (df : DataFrame) :
  df_len df ≠ 0%nat → frame_wf df →
  (∃ maker, maker ∈ MAKERS ∧ maker ∈ dom (df_cols df)) →
  (∀ maker col cell, maker ∈ MAKERS → df_cols df !! maker = Some col →
                     last col = Some cell → ∃ v, py_int cell = Returned v) →
  ∃ ranking,
    maker_latest_list df = Returned ranking ∧
    StronglySorted count_ge ranking ∧
    NoDup ranking.*1 ∧
    ∀ maker v, (maker, v) ∈ ranking ↔ maker ∈ MAKERS ∧ last_value df maker v.
Proof.
  intros Hlen Hwf (maker0 & Hmaker0 & Hcol0) Hint.
  unfold maker_latest_list, df_empty, iloc_last.
  assert ((df_len df =? 0)%nat = false) as -> by by apply Nat.eqb_neq.
  rewrite bool_decide_eq_false_2
    by (intros Hempty; rewrite Hempty, dom_empty_L in Hcol0;
        by apply not_elem_of_empty in Hcol0).
  cbn [orb]. unfold mbind at 1, outcome_bind at 1. cbn [bind].
  destruct (latest_loop df Hlen Hwf MAKERS [] Hint) as (out & Hout & Hfst & Hmem).
  unfold mbind at 1, outcome_bind at 1. rewrite Hout. cbn [bind app].
  destruct out as [|pair out].
  { apply elem_of_dom in Hcol0 as [col Hcol].
    destruct (latest_cell df Hlen Hwf maker0 col Hcol) as [_ [cell Hcell]].
    destruct (Hint maker0 col cell) as [v Hv]; [done..|].
    assert ((maker0, v) ∈ ([] : list (string * Z))) as Hin%elem_of_nil; [|done].
    apply Hmem. split; [done|]. by exists col, cell. }
  eexists. split; [reflexivity|]. split_and!.
  - apply sort_values_desc_sorted.
  - rewrite sort_values_desc_perm, Hfst. apply NoDup_filter, makers_nodup.
  - intros maker v. rewrite sort_values_desc_perm. apply Hmem.
Qed.

(** A cell of a coerced column is a number that is not NaN; [int]
    accepts it unless it is an infinity. *)
Lemma coerced_cell_int `{RT : Runtime} (x : pyobj) :
  (∀ sign, fill0 (to_numeric_cell x) ≠ PFloat (S754_infinity sign)) →
  ∃ v, py_int (fill0 (to_numeric_cell x)) = Returned v.
Proof.
  assert (∀ n : number,
            (∀ sign, fill0 (number_obj n) ≠ PFloat (S754_infinity sign)) →
            ∃ v, py_int (fill0 (number_obj n)) = Returned v) as Hnum.
  { intros [z|[sign|sign| |sign m e]] Hfin; simpl; eauto. by destruct (Hfin sign). }
  destruct x as [|b|z|f|str|l|d]; simpl; eauto.
  - apply (Hnum (NFloat f)).
  - destruct (numeric_of_str str) as [n|]; simpl; eauto.
Qed.

(** On the tables of the normaliser the summariser returns whenever no
    maker's latest value is infinite. *)
Lemma latest_total_without_infinity `{RT : Runtime}
    (requests_get : request → http_result) (time_period : string) :
  ∃ df, result (fetch_maker_metrics requests_get time_period) = Returned df ∧
        ((∀ maker col sign, maker ∈ MAKERS → df_cols df !! maker = Some col →
                            last col ≠ Some (PFloat (S754_infinity sign))) →
         ∃ ranking, maker_latest_list df = Returned ranking).
Proof.
  destruct (fetch_maker_metrics_result requests_get time_period)
    as [->|(periods & data & full & Hin & _ & Hshape & Hfull & ->)].
  { eexists. split; [reflexivity|]. intros _. by exists []. }
  eexists. split; [reflexivity|]. intros Hfinite.
  destruct (normalize_spec periods data Hshape) as (full' & Hfull' & Hlen & Hwf & Hlook).
  assert (full' = full) as -> by congruence.
  set (df := df_tail (window time_period) full) in *.
  destruct (decide (df_len df = 0%nat)) as [Hzero|Hrows].
  { exists []. unfold maker_latest_list, df_empty. by rewrite Hzero. }
  assert (∀ maker, maker ∈ MAKERS →
            df_cols df !! maker
            = Some (series_tail (window time_period)
                      (coerced (aligned_column periods data maker)))) as Hcols.
  { intros maker Hmaker. unfold df.
    by rewrite df_tail_lookup, Hlook, (bool_decide_eq_true_2 _ Hmaker). }
  destruct (latest_ranking df) as (ranking & Hranking & _); [done| | | |by exists ranking].
  - by apply df_tail_wf.
  - exists "total"%string.
    assert ("total"%string ∈ MAKERS) as Htotal by left.
    split; [done|]. apply elem_of_dom. rewrite (Hcols _ Htotal). eauto.
  - intros maker col cell Hmaker Hcol Hcell.
    rewrite (Hcols _ Hmaker) in Hcol. injection Hcol as <-.
    assert (cell ∈ coerced (aligned_column periods data maker)) as Hin'.
    { destruct (series_tail_suffix (window time_period)
                  (coerced (aligned_column periods data maker))) as (older & -> & _).
      apply elem_of_app. right. rewrite last_lookup in Hcell.
      by apply list_elem_of_lookup_2 in Hcell. }
    apply coerced_elem_cases in Hin' as [[b ->]|[x ->]]; [by exists (Z.b2z b)|].
    apply coerced_cell_int. intros sign Hinf.
    apply (Hfinite maker _ sign Hmaker (Hcols _ Hmaker)).
    rewrite Hcell. by rewrite <- Hinf.
Qed.

(** C9, at a response whose last period has 7 for total, 3 for byd and
    an infinite value for tesla: the table the normaliser returns has
    one period row and a column for total, byd and tesla holding those
    values, and the summariser returns no ranking for it, not even the
    pairs of total and byd: its [int] raises [OverflowError] on the
    value of tesla. *)
Theorem latest_ranking_lost_on_infinity `{RT : Runtime} :
  ∃ df, result (fetch_maker_metrics infinite_tesla_server "year") = Returned df ∧
        df_len df = 1%nat ∧
        df_cols df !! "Period"%string = Some [PStr "2024"] ∧
        df_cols df !! "total"%string = Some [PInt 7] ∧
        df_cols df !! "byd"%string = Some [PInt 3] ∧
        df_cols df !! "tesla"%string = Some [PFloat (S754_infinity false)] ∧
        maker_latest_list df = Raised OverflowError.
Proof.
  eexists. split; [vm_compute; reflexivity|].
  split_and!; [reflexivity..|]. vm_compute. reflexivity.
Qed.

(** C10, at a response whose value for total is infinite: the table the
    normaliser returns keeps the infinity, and the summariser's [int]
    raises [OverflowError] on it. *)
Theorem latest_raises_on_infinity `{RT : Runtime} :
  ∃ df, result (fetch_maker_metrics infinite_metrics_server "year") = Returned df ∧
        df_cols df !! "total"%string = Some [PFloat (S754_infinity false)] ∧
        maker_latest_list df = Raised OverflowError.
Proof.
  eexists. split; [vm_compute; reflexivity|].
  split; [reflexivity|]. vm_compute. reflexivity.
Qed.

(** * Further properties of the code *)

(** ** The daily record fetcher *)

Lemma fetch_daily_miss (requests_get : request → http_result) (date_str : string) :
  (∀ d, requests_get (GET (BASE_DAILY +:+ date_str) []) ≠ HttpResponse 200 (Some (PDict d))) →
  result (fetch_daily requests_get date_str) = Returned PNone.
Proof.
  intros Hno. unfold fetch_daily, send. cbn [result].
  destruct (requests_get _) as [|status [body|]] eqn:Hreq; simpl; [reflexivity| |].
  - destruct (negb (status =? 200)) eqn:Hstatus; simpl; [reflexivity|].
    destruct body as [| | | | | |d]; simpl; try reflexivity.
    destruct (Hno d). f_equal. apply negb_false_iff in Hstatus. lia.
  - by destruct (negb (status =? 200)).
Qed.

(** X1: a fetch issues exactly one request, to the daily endpoint
    followed by the date string and without parameters; it hands back
    the body when the status is 200 and the body decodes to a mapping,
    and [None] in every other case; it never raises. *)
Theorem fetch_daily_behaviour (requests_get : request → http_result) (date_str : string) :
  calls (fetch_daily requests_get date_str) = [GET (BASE_DAILY +:+ date_str) []] ∧
  (∀ d, requests_get (GET (BASE_DAILY +:+ date_str) []) = HttpResponse 200 (Some (PDict d)) →
        result (fetch_daily requests_get date_str) = Returned (PDict d)) ∧
  ((∀ d, requests_get (GET (BASE_DAILY +:+ date_str) []) ≠ HttpResponse 200 (Some (PDict d))) →
   result (fetch_daily requests_get date_str) = Returned PNone).
Proof.
  split_and!; [reflexivity| |].
  - intros d Hd. unfold fetch_daily, send. cbn [result]. by rewrite Hd.
  - apply fetch_daily_miss.
Qed.

Lemma fetch_daily_behaviour_witness :
  result (fetch_daily example_server "2025-03-01")
  = Returned (daily_document "v2" {[ "ModelA"%string := PInt 2 ]}).
Proof.
  apply (proj1 (proj2 (fetch_daily_behaviour example_server "2025-03-01"))).
  reflexivity.
Defined.

(** ** The monthly aggregator: calendar and requests *)

Section aggregator_requests.

Context `{RT : Runtime} (TODAY : date) (requests_get : request → http_result).

Lemma zero_pad_day d : 1 <= d <= 31 → digits_value (zero_pad 2 d) 0 = Some d.
Proof.
  intros Hd. assert (d = Z.of_nat (Z.to_nat d)) as -> by lia.
  assert (1 ≤ Z.to_nat d ≤ 31)%nat as Hn by lia.
  generalize dependent (Z.to_nat d). intros n Hn.
  do 32 (destruct n as [|n]; [first [lia|reflexivity]|]). lia.
Qed.

Lemma day_request_inj year month a b :
  1 <= a <= 31 → 1 <= b <= 31 →
  day_request (mkdate year month a) = day_request (mkdate year month b) → a = b.
Proof.
  intros Ha Hb. unfold day_request, strftime. cbn [d_year d_month d_day].
  intros [= Heq]. repeat apply String.app_inj in Heq.
  pose proof (zero_pad_day a Ha) as Hpa. rewrite Heq, (zero_pad_day b Hb) in Hpa.
  congruence.
Qed.

Lemma month_days_lookup year month first n d :
  d ∈ month_days year month first n ↔
  ∃ k, d = mkdate year month k ∧ first <= k < first + Z.of_nat n.
Proof.
  unfold month_days. rewrite list_elem_of_fmap. setoid_rewrite elem_of_seq. split.
  - intros (i & -> & Hi). exists (first + Z.of_nat i). split; [done|lia].
  - intros (k & -> & Hk). exists (Z.to_nat (k - first)). split; [f_equal; lia|lia].
Qed.

Lemma month_requests_nodup year month first n :
  1 <= first → first + Z.of_nat n - 1 <= 31 →
  NoDup (day_request <$> month_days year month first n).
Proof.
  revert first. induction n as [|n IH]; intros first Hfirst Hlast; [constructor|].
  rewrite month_days_cons. cbn [fmap list_fmap]. apply NoDup_cons. split.
  - intros (d & Heq & Hd)%list_elem_of_fmap.
    apply month_days_lookup in Hd as (k & -> & Hk).
    apply day_request_inj in Heq; lia.
  - apply IH; lia.
Qed.

End aggregator_requests.

(** X2: a month outside 1..12 makes the aggregator raise [ValueError];
    with a month in 1..12, a year outside 1..9999 makes it raise
    [ValueError] when the year fits a C integer and [OverflowError] when
    it does not.  In each case nothing has been requested. *)
Theorem aggregator_rejects_bad_calendar `{RT : Runtime} (TODAY : date)
    (requests_get : request → http_result) (year month : Z) :
  (month < 1 ∨ 12 < month →
   fetch_month_daily_aggregated TODAY requests_get year month
   = mkComp (Raised ValueError) []) ∧
  (1 <= month <= 12 → INT_MIN <= year <= INT_MAX →
   year < MINYEAR ∨ MAXYEAR < year →
   fetch_month_daily_aggregated TODAY requests_get year month
   = mkComp (Raised ValueError) []) ∧
  (1 <= month <= 12 → year < INT_MIN ∨ INT_MAX < year →
   fetch_month_daily_aggregated TODAY requests_get year month
   = mkComp (Raised OverflowError) []).
Proof.
  split_and!.
  - intros Hbad. unfold fetch_month_daily_aggregated, monthrange_days.
    by replace ((1 <=? month) && (month <=? 12)) with false by (symmetry; lia).
  - intros Hm Hint Hbad. unfold fetch_month_daily_aggregated.
    rewrite monthrange_days_valid, pure_bind by exact Hm.
    unfold date_new, fits_c_int, INT_MIN, INT_MAX, MINYEAR, MAXYEAR in *.
    replace ((-2147483648 <=? year) && (year <=? 2147483647)) with true
      by (symmetry; lia).
    replace ((-2147483648 <=? month) && (month <=? 2147483647)) with true
      by (symmetry; lia).
    cbn [andb negb].
    by replace ((1 <=? year) && (year <=? 9999)) with false by (symmetry; lia).
  - intros Hm Hbad. unfold fetch_month_daily_aggregated.
    rewrite monthrange_days_valid, pure_bind by exact Hm.
    unfold date_new, fits_c_int, INT_MIN, INT_MAX in *.
    by replace ((-2147483648 <=? year) && (year <=? 2147483647)) with false
      by (symmetry; lia).
Qed.

Lemma aggregator_rejects_bad_calendar_witness :
  @fetch_month_daily_aggregated plain_runtime (mkdate 2025 3 2) example_server 2025 13
  = mkComp (Raised ValueError) [] ∧
  @fetch_month_daily_aggregated plain_runtime (mkdate 2025 3 2) example_server 0 3
  = mkComp (Raised ValueError) [] ∧
  @fetch_month_daily_aggregated plain_runtime (mkdate 2025 3 2) example_server
     2147483648 3
  = mkComp (Raised OverflowError) [].
Proof.
  split_and!.
  - apply (proj1 (@aggregator_rejects_bad_calendar plain_runtime (mkdate 2025 3 2)
                    example_server 2025 13)). lia.
  - apply (proj1 (proj2 (@aggregator_rejects_bad_calendar plain_runtime (mkdate 2025 3 2)
                           example_server 0 3)));
      [lia|unfold INT_MIN, INT_MAX; lia|unfold MINYEAR; lia].
  - apply (proj2 (proj2 (@aggregator_rejects_bad_calendar plain_runtime (mkdate 2025 3 2)
                           example_server 2147483648 3)));
      [lia|unfold INT_MAX; lia].
Defined.

(** X3: a run that returns has sent one request per day, from the first
    of the month to the last day of the month or the current date,
    whichever comes first, in that order, each to the daily endpoint
    followed by the day's date string, and no two of them alike. *)
Theorem aggregator_requests_each_day_once `{RT : Runtime} (TODAY : date)
    (requests_get : request → http_result) (year month : Z) :
  month_ok TODAY requests_get year month →
  date_ltb TODAY (mkdate year month 1) = false →
  let last := if date_ltb TODAY (mkdate year month (mdays year month))
              then d_day TODAY else mdays year month in
  calls (fetch_month_daily_aggregated TODAY requests_get year month)
  = (λ i, GET (BASE_DAILY +:+ strftime (mkdate year month (1 + Z.of_nat i))) [])
      <$> seq 0 (Z.to_nat last) ∧
  NoDup (calls (fetch_month_daily_aggregated TODAY requests_get year month)).
Proof.
  intros Hok Hfuture. rewrite (fetch_month_run _ _ _ _ Hok), Hfuture.
  unfold fetched_days. rewrite Hfuture. cbn [calls]. cbv zeta.
  assert (last_fetched_day TODAY year month
          = if date_ltb TODAY (mkdate year month (mdays year month))
            then d_day TODAY else mdays year month) as <-.
  { unfold last_fetched_day, date_min. by case_match. }
  split.
  - unfold month_days. by rewrite <- list_fmap_compose.
  - destruct (clamp_in_month TODAY year month Hfuture) as [_ Hrange].
    pose proof (mdays_range year month).
    apply month_requests_nodup; lia.
Qed.

Lemma aggregator_requests_each_day_once_witness :
  calls (@fetch_month_daily_aggregated plain_runtime (mkdate 2025 3 2) example_server 2025 3)
  = (λ i, GET (BASE_DAILY +:+ strftime (mkdate 2025 3 (1 + Z.of_nat i))) [])
      <$> seq 0 2 ∧
  NoDup (calls (@fetch_month_daily_aggregated plain_runtime (mkdate 2025 3 2)
                  example_server 2025 3)).
Proof.
  apply (@aggregator_requests_each_day_once plain_runtime (mkdate 2025 3 2)
           example_server 2025 3).
  - apply month_okb_ok. vm_compute. reflexivity.
  - reflexivity.
Defined.

(** ** The monthly aggregator: when it returns *)

Section aggregator_returns.

Context `{RT : Runtime} (TODAY : date) (requests_get : request → http_result).

(** A loop over the items that returns has converted every count. *)
Lemma for_each_add_model_returned items : ∀ st st',
  for_each items add_model st = Returned st' →
  ∀ m c, (m, c) ∈ items → ∃ n, py_int c = Returned n.
Proof.
  induction items as [|[m c] items IH]; intros [row aggregated] st' Hrun m' c' Hin.
  - by apply elem_of_nil in Hin.
  - cbn [for_each add_model] in Hrun.
    destruct (py_int c) as [n| |] eqn:Hn; try discriminate Hrun.
    apply elem_of_cons in Hin as [[= -> ->]|Hin]; [eauto|].
    unfold mbind, outcome_bind in Hrun. cbn [bind] in Hrun. eauto.
Qed.

Lemma month_loop_returned year month n : ∀ first fuel aggregated rows r,
  first + Z.of_nat n - 1 <= mdays year month →
  result (month_loop requests_get fuel (mkdate year month first)
            (mkdate year month (first + Z.of_nat n - 1)) aggregated rows)
  = Returned r →
  ∀ d, d ∈ month_days year month first n → countable (day_models requests_get d).
Proof.
  induction n as [|n IH]; intros first fuel aggregated rows r Hlast Hrun d Hd.
  - by apply elem_of_nil in Hd.
  - destruct fuel as [|fuel]; [discriminate Hrun|].
    cbn [month_loop] in Hrun. rewrite date_leb_same_month in Hrun.
    replace (first <=? first + Z.of_nat (S n) - 1) with true in Hrun
      by (symmetry; apply Z.leb_le; lia).
    destruct (day_models_run requests_get (mkdate year month first))
      as (js & Hfetch & Hmodels).
    rewrite Hfetch, comp_bind_returned, Hmodels, pure_bind in Hrun.
    destruct (for_each (map_to_list (day_models requests_get (mkdate year month first)))
                add_model
                ({[ "Date"%string := PStr (strftime (mkdate year month first)) ]},
                 aggregated)) as [[row aggregated']| |] eqn:Hitems;
      [|discriminate Hrun..].
    assert (countable (day_models requests_get (mkdate year month first))) as Hfirst.
    { intros m c Hm. eapply for_each_add_model_returned; [exact Hitems|].
      by apply elem_of_map_to_list. }
    rewrite month_days_cons in Hd. apply elem_of_cons in Hd as [->|Hd]; [exact Hfirst|].
    rewrite pure_bind in Hrun. cbn [date_add_day] in Hrun.
    destruct (first <? mdays year month) eqn:Hin.
    + rewrite pure_bind in Hrun. cbn [result] in Hrun.
      replace (first + Z.of_nat (S n) - 1) with (first + 1 + Z.of_nat n - 1) in Hrun by lia.
      eapply IH; [|exact Hrun|exact Hd]. lia.
    + assert (n = 0%nat) as -> by lia. by apply elem_of_nil in Hd.
Qed.

End aggregator_returns.

(** X4: for a calendar month and a current date before the last date
    Python represents, the aggregator returns exactly when every count
    of every fetched day has an integer value; a count without one
    (a null, a list, an infinite number) makes it raise. *)
Theorem aggregator_returns_iff_countable `{RT : Runtime} (TODAY : date)
    (requests_get : request → http_result) (year month : Z) :
  MINYEAR <= year <= MAXYEAR → 1 <= month <= 12 →
  date_ltb TODAY (mkdate MAXYEAR 12 31) = true →
  ((∃ r, result (fetch_month_daily_aggregated TODAY requests_get year month) = Returned r)
   ↔ ∀ d, d ∈ fetched_days TODAY year month → countable (day_models requests_get d)) ∧
  ((∃ d, d ∈ fetched_days TODAY year month ∧ ¬ countable (day_models requests_get d)) →
   ∃ e, result (fetch_month_daily_aggregated TODAY requests_get year month) = Raised e).
Proof.
  intros Hy Hm Hmax.
  assert ((∃ r, result (fetch_month_daily_aggregated TODAY requests_get year month)
                = Returned r)
          → ∀ d, d ∈ fetched_days TODAY year month → countable (day_models requests_get d))
    as Hreturned.
  { intros [r Hrun] d Hd. unfold fetched_days in Hd.
    destruct (date_ltb TODAY (mkdate year month 1)) eqn:Hfuture;
      [by apply elem_of_nil in Hd|].
    pose proof (mdays_range year month).
    unfold fetch_month_daily_aggregated in Hrun.
    rewrite monthrange_days_valid, pure_bind in Hrun by exact Hm.
    rewrite !date_new_valid, !pure_bind in Hrun by (try done; lia).
    rewrite Hfuture in Hrun.
    destruct (clamp_in_month TODAY year month Hfuture) as [Hclamp Hrange].
    rewrite Hclamp in Hrun.
    unfold mbind, comp_mbind, comp_bind in Hrun.
    destruct (result (month_loop requests_get loop_fuel (mkdate year month 1)
                        (mkdate year month (last_fetched_day TODAY year month)) ∅ []))
      as [r'| |] eqn:Hloop; try discriminate Hrun.
    eapply (month_loop_returned requests_get year month
              (Z.to_nat (last_fetched_day TODAY year month)) 1);
      [| |exact Hd]; [lia|].
    replace (1 + Z.of_nat (Z.to_nat (last_fetched_day TODAY year month)) - 1)
      with (last_fetched_day TODAY year month) by lia.
    exact Hloop. }
  split.
  - split; [exact Hreturned|].
    intros Hc.
    assert (month_ok TODAY requests_get year month) as Hok by done.
    rewrite (fetch_month_run _ _ _ _ Hok). case_match; eauto.
  - intros (d & Hd & Hbad).
    pose proof (aggregator_terminates TODAY requests_get year month) as Hfuel.
    destruct (result (fetch_month_daily_aggregated TODAY requests_get year month))
      as [r|e|] eqn:Hrun; [|by exists e|done].
    destruct Hbad. apply Hreturned; eauto.
Qed.

Lemma aggregator_returns_iff_countable_witness :
  (∃ r, result (@fetch_month_daily_aggregated plain_runtime (mkdate 2025 3 2)
                  null_count_server 2025 3) = Returned r)
  ↔ ∀ d, d ∈ fetched_days (mkdate 2025 3 2) 2025 3 →
         @countable plain_runtime (day_models null_count_server d).
Proof.
  apply (proj1 (@aggregator_returns_iff_countable plain_runtime (mkdate 2025 3 2)
                  null_count_server 2025 3 ltac:(unfold MINYEAR, MAXYEAR; lia)
                  ltac:(lia) eq_refl)).
Defined.

(** ** The daily matrix: cells and the date column *)

Lemma fill0_str s : fill0 (PStr s) = PStr s.
Proof. reflexivity. Qed.

(** A column of the matrix, cell by cell. *)
Lemma daily_column (requests_get : request → http_result) (days : list date) name :
  (∃ d, d ∈ days ∧ name ∈ dom (day_row requests_get d)) →
  df_cols (fillna0 (frame_of_records (day_row requests_get <$> days))) !! name
  = Some ((λ d, fill0 (default nan (day_row requests_get d !! name))) <$> days).
Proof.
  intros (d & Hd & Hname).
  assert (df_cols (frame_of_records (day_row requests_get <$> days)) !! name
          = Some ((λ row, default nan (row !! name)) <$> (day_row requests_get <$> days)))
    as Hcol.
  { apply frame_of_records_lookup. split; [|reflexivity].
    exists (day_row requests_get d). split; [|exact Hname].
    apply list_elem_of_fmap. eauto. }
  unfold fillna0, series_fillna0. cbn [df_cols]. rewrite lookup_fmap, Hcol. simpl.
  by rewrite <- !list_fmap_compose.
Qed.



(** X6: in the matrix of a run that returns, the cell of a day for a
    model whose entry for that day is an integer between -2^53 and 2^53
    is that integer. *)
Theorem daily_matrix_present_cells `{RT : Runtime} (TODAY : date)
    (requests_get : request → http_result) (year month : Z) :
  month_ok TODAY requests_get year month →
  ∃ daily_df summary_df,
    result (fetch_month_daily_aggregated TODAY requests_get year month)
    = Returned (daily_df, summary_df) ∧
    ∀ i d m z, fetched_days TODAY year month !! i = Some d →
               day_models requests_get d !! m = Some (PInt z) →
               - 2 ^ 53 <= z <= 2 ^ 53 →
               df_row daily_df i !! m = Some (PInt z).
Proof.
  intros Hok. rewrite (fetch_month_run _ _ _ _ Hok). unfold fetched_days.
  destruct (date_ltb TODAY (mkdate year month 1)) eqn:Hfuture.
  - do 2 eexists. split; [reflexivity|]. intros i d m z Hd. by rewrite lookup_nil in Hd.
  - do 2 eexists. split; [reflexivity|]. cbv zeta. intros i d m z Hd Hm _.
    apply df_row_lookup. eexists. split.
    + apply daily_column. exists d. split; [by eapply list_elem_of_lookup_2|].
      unfold day_row. rewrite dom_union_L. apply elem_of_union. left.
      apply elem_of_dom. eauto.
    + rewrite list_lookup_fmap, Hd. simpl. unfold day_row.
      by rewrite lookup_union, Hm, union_Some_l.
Qed.

Lemma daily_matrix_present_cells_witness :
  ∃ daily_df summary_df,
    result (@fetch_month_daily_aggregated plain_runtime (mkdate 2025 3 2) example_server 2025 3)
    = Returned (daily_df, summary_df) ∧
    df_row daily_df 1 !! "ModelB"%string = Some (PInt 5).
Proof.
  destruct (@daily_matrix_present_cells plain_runtime (mkdate 2025 3 2) example_server 2025 3)
    as (daily_df & summary_df & Hrun & Hcells).
  - apply month_okb_ok. vm_compute. reflexivity.
  - exists daily_df, summary_df. split; [exact Hrun|].
    apply (Hcells 1%nat (mkdate 2025 3 2)); [reflexivity|reflexivity|lia].
Defined.

(** ** A month in which no fetch succeeds *)

Section failed_month.

Context `{RT : Runtime} (requests_get : request → http_result).

Lemma day_models_failed d :
  (∀ body, requests_get (day_request d) ≠ HttpResponse 200 (Some (PDict body))) →
  day_models requests_get d = ∅.
Proof.
  intros Hfail. unfold day_models.
  by rewrite (fetch_daily_miss requests_get (strftime d) Hfail).
Qed.

Lemma add_counts_empty (aggregated : gmap string Z) : add_counts ∅ aggregated = aggregated.
Proof.
  apply map_eq. intros m. by rewrite lookup_add_counts, lookup_empty.
Qed.

Lemma month_totals_empty_days days :
  (∀ d, d ∈ days → day_models requests_get d = ∅) →
  month_totals requests_get ∅ days = ∅.
Proof.
  induction days as [|d days IH]; intros Hempty; [reflexivity|].
  rewrite month_totals_cons, (Hempty d), add_counts_empty by left.
  apply IH. intros d' ?. apply Hempty. by right.
Qed.

Lemma date_only_matrix days :
  days ≠ [] →
  (∀ d, d ∈ days → day_models requests_get d = ∅) →
  fillna0 (frame_of_records (day_row requests_get <$> days))
  = mkframe (length days) {[ "Date"%string := PStr ∘ strftime <$> days ]}.
Proof.
  intros Hdays Hempty.
  assert (∀ d, d ∈ days →
            day_row requests_get d = {[ "Date"%string := PStr (strftime d) ]}) as Hrow.
  { intros d Hd. unfold day_row. by rewrite (Hempty d Hd), (left_id_L ∅ (∪)). }
  unfold fillna0 at 1. cbn [df_len frame_of_records]. rewrite length_fmap. f_equal.
  apply map_eq. intros name. destruct (decide (name = "Date"%string)) as [->|Hne].
  - destruct days as [|d0 days0] eqn:Hd0; [done|]. rewrite <- Hd0 in *.
    assert (d0 ∈ days) as Hin by (rewrite Hd0; left).
    pose proof (daily_column requests_get days "Date"%string) as Hcol.
    unfold fillna0 in Hcol. cbn [df_cols] in Hcol. rewrite Hcol.
    + rewrite lookup_singleton_eq. f_equal. apply list_eq. intros i.
      rewrite !list_lookup_fmap. destruct (days !! i) as [d|] eqn:Hd; [|done]. simpl.
      rewrite (Hrow d) by (by eapply list_elem_of_lookup_2).
      by rewrite lookup_singleton_eq.
    + exists d0. split; [exact Hin|]. rewrite (Hrow d0 Hin), dom_singleton_L.
      by apply elem_of_singleton.
  - rewrite lookup_singleton_ne by done. apply eq_None_not_Some. intros [col Hcol].
    change (df_cols (fillna0 (frame_of_records (day_row requests_get <$> days))) !! name
            = Some col) in Hcol.
    apply fillna0_lookup in Hcol as (col0 & Hcol0 & _).
    apply frame_of_records_lookup in Hcol0 as [(row & Hrow' & Hname) _].
    apply list_elem_of_fmap in Hrow' as (d & -> & Hd).
    rewrite (Hrow d Hd), dom_singleton_L in Hname. by apply elem_of_singleton in Hname.
Qed.

End failed_month.

(** X7: when no day of the month can be fetched (the request fails, the
    status is not 200, or the body is not a mapping), the run still
    returns: a matrix with one row per day attempted whose only column
    is Date, and an empty summary. *)
Theorem failed_month_gives_dates_only `{RT : Runtime} (TODAY : date)
    (requests_get : request → http_result) (year month : Z) :
  MINYEAR <= year <= MAXYEAR → 1 <= month <= 12 →
  date_ltb TODAY (mkdate MAXYEAR 12 31) = true →
  date_ltb TODAY (mkdate year month 1) = false →
  (∀ d body, d ∈ fetched_days TODAY year month →
             requests_get (day_request d) ≠ HttpResponse 200 (Some (PDict body))) →
  result (fetch_month_daily_aggregated TODAY requests_get year month)
  = Returned (mkframe (length (fetched_days TODAY year month))
                {[ "Date"%string := PStr ∘ strftime <$> fetched_days TODAY year month ]},
              []).
Proof.
  intros Hy Hm Hmax Hfuture Hfail.
  assert (∀ d, d ∈ fetched_days TODAY year month → day_models requests_get d = ∅)
    as Hempty.
  { intros d Hd. apply day_models_failed. intros body. by apply Hfail. }
  assert (month_ok TODAY requests_get year month) as Hok.
  { split; [exact Hy|]. split; [exact Hm|]. split; [exact Hmax|].
    intros d Hd m c. by rewrite (Hempty d Hd), lookup_empty. }
  rewrite (fetch_month_run _ _ _ _ Hok), Hfuture. cbn [result]. cbv zeta.
  rewrite (month_totals_empty_days requests_get _ Hempty).
  rewrite bool_decide_eq_true_2 by reflexivity.
  rewrite date_only_matrix; [reflexivity| |exact Hempty].
  destruct (clamp_in_month TODAY year month Hfuture) as [_ Hrange].
  unfold fetched_days. rewrite Hfuture. intros Hnil.
  assert (mkdate year month 1
          ∈ month_days year month 1 (Z.to_nat (last_fetched_day TODAY year month))) as Hin
    by (apply month_days_lookup; exists 1; split; [done|lia]).
  rewrite Hnil in Hin. by apply elem_of_nil in Hin.
Qed.

(** A server that answers nothing. *)
Lemma failed_month_gives_dates_only_witness :
  result (@fetch_month_daily_aggregated plain_runtime (mkdate 2025 3 2)
            (λ _, ConnectionFailed) 2025 3)
  = Returned (mkframe 2 {[ "Date"%string := [PStr "2025-03-01"; PStr "2025-03-02"] ]}, []).
Proof.
  apply (@failed_month_gives_dates_only plain_runtime (mkdate 2025 3 2)
           (λ _, ConnectionFailed) 2025 3);
    [unfold MINYEAR, MAXYEAR; lia|lia|reflexivity|reflexivity|discriminate].
Defined.

(** ** The normaliser: requests and degraded responses *)

Section metrics_responses.

Context `{RT : Runtime} (requests_get : request → http_result).

(** What the normaliser does with a response that is a mapping. *)
Lemma fetch_maker_metrics_of_mapping time_period (js : gmap string pyobj) :
  time_period ∈ ["month"; "quarter"; "year"]%string →
  requests_get (maker_request time_period) = HttpResponse 200 (Some (PDict js)) →
  result (fetch_maker_metrics requests_get time_period)
  = try_except
      (match dict_get js "periods" (PList []) with
       | PList periods =>
           let data := unwrap_data (dict_get js "data" (PDict ∅)) in
           if negb (isinstance_dict data || isinstance_list data)
           then Returned empty_frame
           else df ← normalize periods data;
                Returned (df_tail (window time_period) df)
       | _ => Returned empty_frame
       end)
      (Returned empty_frame).
Proof.
  intros Hin Hreq. unfold fetch_maker_metrics. rewrite (bool_decide_eq_true_2 _ Hin).
  cbn [negb result]. unfold send. fold (maker_request time_period).
  rewrite Hreq. cbn -[normalize truncate window unwrap_data]. unfold reset_index.
  destruct (dict_get js "periods" (PList [])); try reflexivity.
  destruct (negb _); [reflexivity|].
  destruct (normalize _ _) as [df| |]; [|reflexivity..].
  cbn. by rewrite truncate_window.
Qed.

Lemma fetch_maker_metrics_returns time_period :
  ∃ df, result (fetch_maker_metrics requests_get time_period) = Returned df.
Proof.
  destruct (fetch_maker_metrics_result requests_get time_period)
    as [->|(periods & data & full & _ & _ & _ & _ & ->)]; eauto.
Qed.

End metrics_responses.

(** X8: for a bucket other than month, quarter and year the normaliser
    returns the empty frame without sending anything; for one of the
    three it sends exactly one request, to the maker endpoint, with the
    allow-list and the bucket as parameters; and in every case it
    returns a frame, it never raises. *)
Theorem fetch_maker_metrics_requests `{RT : Runtime}
    (requests_get : request → http_result) (time_period : string) :
  (time_period ∉ ["month"; "quarter"; "year"]%string →
   fetch_maker_metrics requests_get time_period = mkComp (Returned empty_frame) []) ∧
  (time_period ∈ ["month"; "quarter"; "year"]%string →
   calls (fetch_maker_metrics requests_get time_period)
   = [GET BASE_MAKER
        [("filterMakers", json_dumps MAKERS); ("timePeriod", time_period)]%string]) ∧
  (∃ df, result (fetch_maker_metrics requests_get time_period) = Returned df).
Proof.
  split_and!.
  - intros Hout. unfold fetch_maker_metrics. by rewrite (bool_decide_eq_false_2 _ Hout).
  - intros Hin. unfold fetch_maker_metrics. by rewrite (bool_decide_eq_true_2 _ Hin).
  - apply fetch_maker_metrics_returns.
Qed.

Lemma fetch_maker_metrics_requests_witness :
  @fetch_maker_metrics plain_runtime example_metrics_server "week"
  = mkComp (Returned empty_frame) [].
Proof.
  apply (proj1 (@fetch_maker_metrics_requests plain_runtime example_metrics_server "week")).
  apply (bool_decide_unpack _). vm_compute. exact I.
Defined.

(** X9: the normaliser returns the empty frame when the request fails,
    when the status is not 200, when the body is not JSON, when the body
    is not a mapping, when its periods are not a list, and when its data
    are neither a mapping nor a list. *)
Theorem degraded_responses_give_empty_frame `{RT : Runtime}
    (requests_get : request → http_result) (time_period : string) :
  time_period ∈ ["month"; "quarter"; "year"]%string →
  (requests_get (maker_request time_period) = ConnectionFailed →
   result (fetch_maker_metrics requests_get time_period) = Returned empty_frame) ∧
  (∀ status body,
     requests_get (maker_request time_period) = HttpResponse status body →
     status ≠ 200 →
     result (fetch_maker_metrics requests_get time_period) = Returned empty_frame) ∧
  (requests_get (maker_request time_period) = HttpResponse 200 None →
   result (fetch_maker_metrics requests_get time_period) = Returned empty_frame) ∧
  (∀ body,
     requests_get (maker_request time_period) = HttpResponse 200 (Some body) →
     isinstance_dict body = false →
     result (fetch_maker_metrics requests_get time_period) = Returned empty_frame) ∧
  (∀ js periods,
     requests_get (maker_request time_period) = HttpResponse 200 (Some (PDict js)) →
     js !! "periods"%string = Some periods → isinstance_list periods = false →
     result (fetch_maker_metrics requests_get time_period) = Returned empty_frame) ∧
  (∀ js data,
     requests_get (maker_request time_period) = HttpResponse 200 (Some (PDict js)) →
     js !! "data"%string = Some data →
     isinstance_dict data = false → isinstance_list data = false →
     result (fetch_maker_metrics requests_get time_period) = Returned empty_frame).
Proof.
  intros Hin.
  assert (∀ response,
            requests_get (maker_request time_period) = response →
            result (fetch_maker_metrics requests_get time_period)
            = try_except
                ('(status_code, r_json) ←
                   match response with
                   | ConnectionFailed => Raised RequestException
                   | HttpResponse status body =>
                       Returned (status, match body with
                                         | Some v => Returned v
                                         | None => Raised ValueError
                                         end)
                   end;
                 if negb (status_code =? 200) then Returned empty_frame
                 else js ← r_json;
                      match js with
                      | PDict _ => result (fetch_maker_metrics requests_get time_period)
                      | _ => Returned empty_frame
                      end)
                (Returned empty_frame)) as Hshape.
  { intros response Hreq.
    destruct response as [|status [[| | | | | |js]|]];
      try (unfold fetch_maker_metrics; rewrite (bool_decide_eq_true_2 _ Hin);
           cbn [negb result]; unfold send; fold (maker_request time_period);
           rewrite Hreq; cbn; by repeat case_match).
    destruct (decide (status = 200)) as [->|Hstatus].
    - cbn. by destruct (fetch_maker_metrics_returns requests_get time_period) as [df ->].
    - unfold fetch_maker_metrics. rewrite (bool_decide_eq_true_2 _ Hin).
      cbn [negb result]. unfold send. fold (maker_request time_period).
      rewrite Hreq. cbn.
      replace (status =? 200) with false by (symmetry; apply Z.eqb_neq; exact Hstatus).
      reflexivity. }
  split_and!.
  - intros Hreq. by rewrite (Hshape _ Hreq).
  - intros status body Hreq Hstatus. rewrite (Hshape _ Hreq). cbn.
    replace (status =? 200) with false by (symmetry; apply Z.eqb_neq; exact Hstatus).
    reflexivity.
  - intros Hreq. by rewrite (Hshape _ Hreq).
  - intros body Hreq Hbody. rewrite (Hshape _ Hreq). by destruct body.
  - intros js periods Hreq Hperiods Hlist.
    rewrite (fetch_maker_metrics_of_mapping _ _ js Hin Hreq).
    unfold dict_get. rewrite Hperiods. simpl. by destruct periods.
  - intros js data Hreq Hdata Hdict Hlist.
    rewrite (fetch_maker_metrics_of_mapping _ _ js Hin Hreq).
    unfold dict_get at 2. rewrite Hdata. simpl.
    assert (unwrap_data data = data) as -> by (by destruct data).
    rewrite Hdict, Hlist. simpl. by destruct (dict_get js "periods" (PList [])).
Qed.

Lemma degraded_responses_give_empty_frame_witness :
  result (@fetch_maker_metrics plain_runtime (λ _, ConnectionFailed) "month")
  = Returned empty_frame.
Proof.
  assert ("month"%string ∈ ["month"; "quarter"; "year"]%string) as Hin
    by (apply (bool_decide_unpack _); vm_compute; exact I).
  apply (proj1 (@degraded_responses_give_empty_frame plain_runtime
                  (λ _, ConnectionFailed) "month" Hin)).
  reflexivity.
Defined.

(** ** The normaliser: missing keys, nested data, rows *)

Section metrics_shapes.

Context `{RT : Runtime} (requests_get : request → http_result).

(** The table returned for an answer, column by column. *)
Lemma returned_table time_period periods data :
  time_period ∈ ["month"; "quarter"; "year"]%string →
  answers requests_get time_period periods data →
  isinstance_dict data || isinstance_list data = true →
  ∃ df,
    result (fetch_maker_metrics requests_get time_period) = Returned df ∧
    df_len df = (length periods `min` window time_period)%nat ∧
    df_cols df !! "Period"%string = Some (series_tail (window time_period) periods) ∧
    (∀ maker, maker ∈ MAKERS →
       df_cols df !! maker
       = Some (series_tail (window time_period)
                 (coerced (aligned_column periods data maker)))) ∧
    (∀ name, name ∉ MAKERS → name ≠ "Period"%string → df_cols df !! name = None).
Proof.
  intros Hin Hanswer Hshape.
  destruct (fetch_maker_metrics_run requests_get time_period periods data Hin Hanswer Hshape)
    as (full & Hfull & Hrun).
  destruct (normalize_spec periods data Hshape) as (full' & Hfull' & Hlen & _ & Hlook).
  assert (full' = full) as -> by congruence.
  exists (df_tail (window time_period) full). split_and!.
  - exact Hrun.
  - cbn [df_tail df_len]. by rewrite Hlen.
  - rewrite df_tail_lookup, Hlook, (bool_decide_eq_false_2 _ period_not_maker).
    by rewrite (bool_decide_eq_true_2 ("Period"%string = "Period"%string)).
  - intros maker Hmaker. by rewrite df_tail_lookup, Hlook, (bool_decide_eq_true_2 _ Hmaker).
  - intros name Hname Hperiod.
    by rewrite df_tail_lookup, Hlook, (bool_decide_eq_false_2 _ Hname),
      (bool_decide_eq_false_2 _ Hperiod).
Qed.

(** The column read out of a list of rows, cell by cell. *)
Lemma column_of_rows_cells periods (rows : list pyobj) maker :
  column_of_rows periods rows maker
  = Returned ((λ i, match rows !! i with
                    | Some (PDict entry) => default PNone (entry !! maker)
                    | _ => PNone
                    end) <$> seq 0 (length periods)).
Proof.
  unfold column_of_rows.
  assert (∀ n start col0,
            for_each (seq start n)
              (λ col i,
                 try_except
                   (entry ← list_getitem rows i;
                    v ← entry_get entry maker;
                    Returned (col ++ [v]))
                   (Returned (col ++ [PNone]))) col0
            = Returned (col0 ++ ((λ i, match rows !! i with
                                       | Some (PDict entry) => default PNone (entry !! maker)
                                       | _ => PNone
                                       end) <$> seq start n))) as Hloop.
  { induction n as [|n IH]; intros start col0.
    - simpl. by rewrite app_nil_r.
    - cbn [seq for_each fmap list_fmap].
      assert (try_except
                (entry ← list_getitem rows start;
                 v ← entry_get entry maker;
                 Returned (col0 ++ [v]))
                (Returned (col0 ++ [PNone]))
              = Returned (col0 ++ [match rows !! start with
                                   | Some (PDict entry) => default PNone (entry !! maker)
                                   | _ => PNone
                                   end])) as ->.
      { unfold list_getitem, entry_get, dict_get, mbind, outcome_bind, bind.
        by destruct (rows !! start) as [[| | | | | |d]|]. }
      pose proof (IH (S start) (col0 ++ [match rows !! start with
                                         | Some (PDict entry) => default PNone (entry !! maker)
                                         | _ => PNone
                                         end])) as Hrest.
      rewrite <- app_assoc in Hrest. exact Hrest. }
  exact (Hloop (length periods) 0%nat []).
Qed.

End metrics_shapes.



(** X11: data nested once more under a key of its own name is unwrapped:
    a response whose data is a mapping holding a mapping under "data"
    gives the table of the response that carries that inner mapping
    directly, everything else being equal. *)
Theorem nested_data_is_unwrapped `{RT : Runtime}
    (nested direct : request → http_result) (time_period : string)
    (js_nested js_direct wrapper inner : gmap string pyobj) :
  time_period ∈ ["month"; "quarter"; "year"]%string →
  nested (maker_request time_period) = HttpResponse 200 (Some (PDict js_nested)) →
  direct (maker_request time_period) = HttpResponse 200 (Some (PDict js_direct)) →
  js_nested !! "periods"%string = js_direct !! "periods"%string →
  js_nested !! "data"%string = Some (PDict wrapper) →
  wrapper !! "data"%string = Some (PDict inner) →
  js_direct !! "data"%string = Some (PDict inner) →
  isinstance_dict (default PNone (inner !! "data"%string)) = false →
  result (fetch_maker_metrics nested time_period)
  = result (fetch_maker_metrics direct time_period).
Proof.
  intros Hin Hnested Hdirect Hperiods Hwrapped Hinner Hplain Hflat.
  rewrite (fetch_maker_metrics_of_mapping nested _ js_nested Hin Hnested).
  rewrite (fetch_maker_metrics_of_mapping direct _ js_direct Hin Hdirect).
  assert (unwrap_data (dict_get js_nested "data" (PDict ∅)) = PDict inner) as Hn.
  { unfold dict_get. rewrite Hwrapped. simpl. by rewrite Hinner. }
  assert (unwrap_data (dict_get js_direct "data" (PDict ∅)) = PDict inner) as Hd.
  { unfold dict_get. rewrite Hplain. simpl.
    by destruct (inner !! "data"%string) as [[]|]. }
  assert (dict_get js_nested "periods" (PList []) = dict_get js_direct "periods" (PList []))
    as Hp by (unfold dict_get; by rewrite Hperiods).
  cbv zeta. by rewrite Hn, Hd, Hp.
Qed.

Lemma nested_data_is_unwrapped_witness :
  result (@fetch_maker_metrics plain_runtime
            (λ _, HttpResponse 200
                    (Some (metrics_document [PStr "2024"]
                             (PDict {[ "data"%string :=
                                         PDict {[ "byd"%string := PList [PInt 7] ]} ]}))))
            "year")
  = result (@fetch_maker_metrics plain_runtime
              (λ _, HttpResponse 200
                      (Some (metrics_document [PStr "2024"]
                               (PDict {[ "byd"%string := PList [PInt 7] ]}))))
              "year").
Proof.
  assert ("year"%string ∈ ["month"; "quarter"; "year"]%string) as Hin
    by (apply (bool_decide_unpack _); vm_compute; exact I).
  eapply (@nested_data_is_unwrapped plain_runtime _ _ "year" _ _
            {[ "data"%string := PDict {[ "byd"%string := PList [PInt 7] ]} ]}
            {[ "byd"%string := PList [PInt 7] ]} Hin);
    reflexivity.
Defined.

(** X12: when the data are a list of rows, the cell of a maker for the
    i-th period is what the i-th row holds under the maker's name, and a
    null when the list has no i-th row, when that row is not a mapping,
    or when it has no such key; rows beyond the periods are ignored. *)
Theorem rows_form_cells (periods rows : list pyobj) (maker : string) :
  ∃ col,
    column_of_rows periods rows maker = Returned col ∧
    length col = length periods ∧
    ∀ i, (i < length periods)%nat →
      (∀ entry, rows !! i = Some (PDict entry) →
                col !! i = Some (default PNone (entry !! maker))) ∧
      ((∀ entry, rows !! i ≠ Some (PDict entry)) → col !! i = Some PNone).
Proof.
  eexists. split; [apply column_of_rows_cells|]. split.
  - by rewrite length_fmap, length_seq.
  - intros i Hi. rewrite list_lookup_fmap, lookup_seq_lt by exact Hi. simpl. split.
    + by intros entry ->.
    + intros Hno. destruct (rows !! i) as [[| | | | | |entry]|]; try reflexivity.
      by destruct (Hno entry).
Qed.

Lemma rows_form_cells_witness :
  ∃ col,
    column_of_rows [PStr "2024-01"; PStr "2024-02"]
      [PDict {[ "byd"%string := PInt 4 ]}] "byd" = Returned col ∧
    length col = 2%nat ∧
    ∀ i, (i < 2)%nat →
      (∀ entry, [PDict {[ "byd"%string := PInt 4 ]}] !! i = Some (PDict entry) →
                col !! i = Some (default PNone (entry !! "byd"%string))) ∧
      ((∀ entry, [PDict {[ "byd"%string := PInt 4 ]}] !! i ≠ Some (PDict entry)) →
       col !! i = Some PNone).
Proof.
  apply (rows_form_cells [PStr "2024-01"; PStr "2024-02"]
           [PDict {[ "byd"%string := PInt 4 ]}] "byd").
Defined.

(** ** The normaliser: what the returned table holds *)

Section metrics_cells.

Context `{RT : Runtime}.

Lemma coerced_cell_number (x : pyobj) : is_number (fill0 (to_numeric_cell x)) = true.
Proof.
  assert (∀ n : number, is_number (fill0 (number_obj n)) = true) as Hnum
    by (by intros [z|[]]).
  destruct x as [|b|z|f|str|l|d]; try reflexivity.
  - apply (Hnum (NFloat f)).
  - simpl. by destruct (numeric_of_str str) as [n|]; [apply Hnum|].
Qed.

Lemma number_unchanged (x : pyobj) : is_number x = true → fill0 (to_numeric_cell x) = x.
Proof. by destruct x as [| | |[]| | |]. Qed.

Lemma coerced_numbers (col : list pyobj) :
  Forall (λ x, is_number x = true) col → coerced col = col.
Proof.
  intros Hcol. unfold coerced, series_fillna0, to_numeric.
  destruct (forallb isinstance_bool col).
  - rewrite <- (list_fmap_id col) at 2.
    apply Forall_fmap_ext_1. eapply Forall_impl; [exact Hcol|].
    intros x Hx. by destruct x as [| | |[]| | |].
  - rewrite <- list_fmap_compose. rewrite <- (list_fmap_id col) at 2.
    apply Forall_fmap_ext_1. eapply Forall_impl; [exact Hcol|].
    intros x Hx. by apply number_unchanged.
Qed.

Lemma float64_exact_number (x : pyobj) : float64_exact x = true → is_number x = true.
Proof. by destruct x as [| | |[]| | |]. Qed.

Lemma coerced_elem (col : list pyobj) cell : cell ∈ coerced col → is_numeric cell = true.
Proof.
  intros [[b ->]|[x ->]]%coerced_elem_cases; [reflexivity|].
  unfold is_numeric. rewrite coerced_cell_number. apply orb_true_r.
Qed.

Lemma series_tail_elem n (col : list pyobj) cell : cell ∈ series_tail n col → cell ∈ col.
Proof.
  destruct (series_tail_suffix n col) as (older & Hsplit & _).
  intros Hin. rewrite Hsplit. apply elem_of_app. by right.
Qed.

End metrics_cells.





(** X15: a maker whose upstream series has one value per period, each
    an integer between -2^53 and 2^53 or a float other than NaN, keeps
    those values: its column in the table returned is the end of the
    series, unchanged. *)
Theorem aligned_numbers_are_kept `{RT : Runtime}
    (requests_get : request → http_result) (time_period : string)
    (periods : list pyobj) (data : gmap string pyobj) (maker : string)
    (series : list pyobj) :
  time_period ∈ ["month"; "quarter"; "year"]%string →
  answers requests_get time_period periods (PDict data) →
  maker ∈ MAKERS →
  aligned_series periods data maker series →
  Forall (λ x, float64_exact x = true) series →
  ∃ df,
    result (fetch_maker_metrics requests_get time_period) = Returned df ∧
    df_cols df !! maker = Some (series_tail (window time_period) series).
Proof.
  intros Hin Hanswer Hmaker Haligned Hnumbers.
  destruct (returned_table requests_get time_period periods (PDict data) Hin Hanswer)
    as (df & Hrun & _ & _ & Hmakers & _); [reflexivity|].
  exists df. split; [exact Hrun|]. rewrite (Hmakers maker Hmaker).
  cbn [aligned_column]. rewrite (column_of_mapping_aligned _ _ _ _ Haligned).
  rewrite coerced_numbers; [reflexivity|].
  eapply Forall_impl; [exact Hnumbers|]. apply float64_exact_number.
Qed.

Lemma aligned_numbers_are_kept_witness :
  ∃ df,
    result (@fetch_maker_metrics plain_runtime example_metrics_server "month") = Returned df ∧
    df_cols df !! "tesla"%string = Some (series_tail (window "month") [PInt 10; PInt 20]).
Proof.
  assert ("month"%string ∈ ["month"; "quarter"; "year"]%string) as Hin
    by (apply (bool_decide_unpack _); vm_compute; exact I).
  apply (@aligned_numbers_are_kept plain_runtime example_metrics_server "month"
           [PStr "2024-01"; PStr "2024-02"]
           {[ "tesla"%string := PList [PInt 10; PInt 20] ]} "tesla" [PInt 10; PInt 20] Hin).
  - eexists. split_and!; reflexivity.
  - apply (bool_decide_unpack _). vm_compute. exact I.
  - split; reflexivity.
  - repeat constructor.
Defined.

(** ** The summariser: failures and the tables of the normaliser *)

Section latest_failures.

Context `{RT : Runtime} (df : DataFrame).

(** The summariser on a frame with rows and columns. *)
Lemma maker_latest_list_nonempty :
  df_len df ≠ 0%nat → df_cols df ≠ ∅ →
  maker_latest_list df
  = out ← for_each MAKERS
            (λ out maker,
               if bool_decide (maker ∈ dom (df_cols df)) then
                 cell ← getitem (PDict (df_row df (df_len df - 1))) maker;
                 v ← py_int cell;
                 Returned (out ++ [(maker, v)])
               else Returned out) [];
    match out with
    | [] => Raised KeyError
    | _ => Returned (sort_values_desc out)
    end.
Proof.
  intros Hlen Hcols. unfold maker_latest_list, df_empty, iloc_last.
  assert ((df_len df =? 0)%nat = false) as -> by by apply Nat.eqb_neq.
  by rewrite (bool_decide_eq_false_2 _ Hcols).
Qed.

Lemma latest_loop_absent (makers : list string) : ∀ out0,
  (∀ maker, maker ∈ makers → maker ∉ dom (df_cols df)) →
  for_each makers
    (λ out maker,
       if bool_decide (maker ∈ dom (df_cols df)) then
         cell ← getitem (PDict (df_row df (df_len df - 1))) maker;
         v ← py_int cell;
         Returned (out ++ [(maker, v)])
       else Returned out) out0
  = Returned out0.
Proof.
  induction makers as [|maker makers IH]; intros out0 Habsent; [reflexivity|].
  cbn [for_each]. rewrite bool_decide_eq_false_2 by (apply Habsent; left).
  apply IH. intros maker' ?. apply Habsent. by right.
Qed.

Hypothesis df_rows : df_len df ≠ 0%nat.
Hypothesis df_wf : frame_wf df.

(** The loop stops with [OverflowError] at the first infinite value,
    when every value is a number. *)
Lemma latest_loop_overflow (makers : list string) : ∀ out0,
  (∀ maker, maker ∈ makers →
     ∃ col cell, df_cols df !! maker = Some col ∧ last col = Some cell ∧
                 is_numeric cell = true) →
  (∃ maker col sign, maker ∈ makers ∧ df_cols df !! maker = Some col ∧
                     last col = Some (PFloat (S754_infinity sign))) →
  for_each makers
    (λ out maker,
       if bool_decide (maker ∈ dom (df_cols df)) then
         cell ← getitem (PDict (df_row df (df_len df - 1))) maker;
         v ← py_int cell;
         Returned (out ++ [(maker, v)])
       else Returned out) out0
  = Raised OverflowError.
Proof.
  induction makers as [|maker makers IH]; intros out0 Hnumbers Hinf.
  { destruct Hinf as (maker & _ & _ & Hin & _). by apply elem_of_nil in Hin. }
  destruct (Hnumbers maker) as (col & cell & Hcol & Hcell & Hnumber); [left|].
  cbn [for_each]. rewrite bool_decide_eq_true_2 by (apply elem_of_dom; eauto).
  destruct (latest_cell df df_rows df_wf maker col Hcol) as [Hrow _].
  unfold getitem. rewrite Hrow, Hcell. unfold mbind at 1, outcome_bind at 1. cbn [bind].
  destruct cell as [|b|z|[sign|sign| |sign m e]| | |]; try discriminate Hnumber;
    try reflexivity;
    (unfold mbind at 1, outcome_bind at 1; cbn [py_int float_trunc bind];
     unfold mbind at 1, outcome_bind at 1; cbn [bind];
     apply IH; [intros maker' ?; apply Hnumbers; by right|];
     destruct Hinf as (maker' & col' & sign' & Hin & Hcol' & Hcell');
     apply elem_of_cons in Hin as [->|Hin]; [congruence|eauto 10]).
Qed.

End latest_failures.

(** X16: on a table with rows and columns but without a column for any
    maker of the allow-list, the summariser raises [KeyError]: it has
    nothing to sort. *)
Theorem latest_without_makers_raises `{RT : Runtime} (df : DataFrame) :
  df_len df ≠ 0%nat → df_cols df ≠ ∅ →
  (∀ maker, maker ∈ MAKERS → maker ∉ dom (df_cols df)) →
  maker_latest_list df = Raised KeyError.
Proof.
  intros Hlen Hcols Habsent.
  rewrite maker_latest_list_nonempty by done.
  by rewrite latest_loop_absent.
Qed.

Lemma latest_without_makers_raises_witness :
  @maker_latest_list plain_runtime (mkframe 1 {[ "Period"%string := [PStr "2024"] ]})
  = Raised KeyError.
Proof.
  apply (@latest_without_makers_raises plain_runtime).
  - discriminate.
  - apply insert_non_empty.
  - intros maker Hmaker. cbn [df_cols]. rewrite dom_singleton_L, elem_of_singleton.
    intros ->.
    by apply period_not_maker.
Defined.

(** X17: on the table the normaliser returns for an answer with at
    least one period, the summariser ranks all seven makers when no
    maker's latest value is infinite, and raises [OverflowError] when
    some maker's latest value is. *)
Theorem latest_on_normalised_tables `{RT : Runtime}
    (requests_get : request → http_result) (time_period : string)
    (periods : list pyobj) (data : pyobj) :
  time_period ∈ ["month"; "quarter"; "year"]%string →
  answers requests_get time_period periods data →
  isinstance_dict data || isinstance_list data = true →
  periods ≠ [] →
  ∃ df,
    result (fetch_maker_metrics requests_get time_period) = Returned df ∧
    ((∀ maker col sign, maker ∈ MAKERS → df_cols df !! maker = Some col →
                        last col ≠ Some (PFloat (S754_infinity sign))) →
     ∃ ranking, maker_latest_list df = Returned ranking ∧ ranking.*1 ≡ₚ MAKERS) ∧
    (∀ maker col sign, maker ∈ MAKERS → df_cols df !! maker = Some col →
                       last col = Some (PFloat (S754_infinity sign)) →
                       maker_latest_list df = Raised OverflowError).
Proof.
  intros Hin Hanswer Hshape Hperiods.
  destruct (returned_table requests_get time_period periods data Hin Hanswer Hshape)
    as (df & Hrun & Hlen & Hperiod & Hmakers & _).
  assert (df_len df ≠ 0%nat) as Hrows.
  { rewrite Hlen. destruct periods; [done|].
    rewrite !elem_of_cons, elem_of_nil in Hin.
    destruct Hin as [->|[->|[->|[]]]]; simpl; lia. }
  assert (frame_wf df) as Hwf.
  { destruct (fetch_maker_metrics_run requests_get time_period periods data Hin Hanswer Hshape)
      as (full & Hfull & Hrun').
    destruct (normalize_spec periods data Hshape) as (full' & Hfull' & _ & Hwf' & _).
    assert (full' = full) as -> by congruence.
    assert (df = df_tail (window time_period) full) as -> by congruence.
    by apply df_tail_wf. }
  assert (df_cols df ≠ ∅) as Hcols.
  { intros Hempty. rewrite Hempty, lookup_empty in Hperiod. discriminate Hperiod. }
  assert (∀ maker, maker ∈ MAKERS →
            ∃ col cell, df_cols df !! maker = Some col ∧ last col = Some cell ∧
                        is_numeric cell = true) as Hnumbers.
  { intros maker Hmaker. eexists. 
    destruct (latest_cell df Hrows Hwf maker _ (Hmakers maker Hmaker)) as [_ [cell Hcell]].
    exists cell. split_and!; [exact (Hmakers maker Hmaker)|exact Hcell|].
    eapply coerced_elem, series_tail_elem.
    rewrite last_lookup in Hcell. by eapply list_elem_of_lookup_2. }
  exists df. split_and!; [exact Hrun| |].
  - intros Hfinite.
    destruct (latest_loop df Hrows Hwf MAKERS []) as (out & Hout & Hfst & _).
    { intros maker col cell Hmaker Hcol Hcell.
      destruct (Hnumbers maker Hmaker) as (col' & cell' & Hcol' & Hcell' & Hnumber).
      assert (col' = col) as -> by congruence.
      assert (cell' = cell) as -> by congruence.
      destruct cell as [|b|z|[sign|sign| |sign m e]| | |]; try discriminate Hnumber;
        simpl; eauto.
      by destruct (Hfinite maker col sign Hmaker Hcol). }
    rewrite maker_latest_list_nonempty by done.
    unfold mbind at 1, outcome_bind at 1. rewrite Hout. cbn [bind app].
    assert (out.*1 = MAKERS) as Hall.
    { rewrite Hfst.
      induction MAKERS as [|maker makers IH] in Hmakers |- *; [reflexivity|].
      rewrite filter_cons_True
        by (apply elem_of_dom; rewrite (Hmakers maker) by left; eauto).
      f_equal. apply IH. intros maker' ?. apply Hmakers. by right. }
    destruct out as [|pair out]; [discriminate Hall|].
    eexists. split; [reflexivity|]. by rewrite sort_values_desc_perm, Hall.
  - intros maker col sign Hmaker Hcol Hcell.
    rewrite maker_latest_list_nonempty by done.
    rewrite (latest_loop_overflow df Hrows Hwf MAKERS [] Hnumbers); [reflexivity|].
    eauto 10.
Qed.

Lemma latest_on_normalised_tables_witness :
  ∃ df,
    result (@fetch_maker_metrics plain_runtime infinite_metrics_server "year") = Returned df ∧
    ((∀ maker col sign, maker ∈ MAKERS → df_cols df !! maker = Some col →
                        last col ≠ Some (PFloat (S754_infinity sign))) →
     ∃ ranking, @maker_latest_list plain_runtime df = Returned ranking ∧
                ranking.*1 ≡ₚ MAKERS) ∧
    (∀ maker col sign, maker ∈ MAKERS → df_cols df !! maker = Some col →
                       last col = Some (PFloat (S754_infinity sign)) →
                       @maker_latest_list plain_runtime df = Raised OverflowError).
Proof.
  assert ("year"%string ∈ ["month"; "quarter"; "year"]%string) as Hin
    by (apply (bool_decide_unpack _); vm_compute; exact I).
  apply (@latest_on_normalised_tables plain_runtime infinite_metrics_server "year"
           [PStr "2024"]
           (PDict {[ "total"%string := PList [PFloat (S754_infinity false)] ]}) Hin).
  - eexists. split_and!; reflexivity.
  - reflexivity.
  - discriminate.
Defined.

(** X23: the summariser gives the empty ranking for a table without
    rows.  For a table with rows, a column for some maker of the
    allow-list and, in the last row of every such column, an integer
    between -2^53 and 2^53, it returns a ranking sorted by descending
    value that lists each maker once and pairs a maker with a value
    exactly when the maker is on the allow-list, is a column of the
    table, and the value is the integer in the last row of its column. *)
Theorem latest_ranking_of_integers `{RT : Runtime} (df : DataFrame) :
  (df_len df = 0%nat → maker_latest_list df = Returned []) ∧
  (df_len df ≠ 0%nat → frame_wf df →
   (∃ maker, maker ∈ MAKERS ∧ maker ∈ dom (df_cols df)) →
   (∀ maker col, maker ∈ MAKERS → df_cols df !! maker = Some col →
                 ∃ z, last col = Some (PInt z) ∧ - 2 ^ 53 <= z <= 2 ^ 53) →
   ∃ ranking,
     maker_latest_list df = Returned ranking ∧
     StronglySorted count_ge ranking ∧
     NoDup ranking.*1 ∧
     ∀ maker z, (maker, z) ∈ ranking ↔
                maker ∈ MAKERS ∧
                ∃ col, df_cols df !! maker = Some col ∧ last col = Some (PInt z)).
Proof.
  split.
  { intros Hlen. unfold maker_latest_list, df_empty. by rewrite Hlen. }
  intros Hrows Hwf Hsome Hints.
  destruct (latest_ranking df Hrows Hwf Hsome) as (ranking & Hrun & Hsorted & Hnodup & Hmem).
  { intros maker col cell Hmaker Hcol Hcell.
    destruct (Hints maker col Hmaker Hcol) as (z & Hz & _).
    exists z. by replace cell with (PInt z) by congruence. }
  exists ranking. split_and!; [exact Hrun|exact Hsorted|exact Hnodup|].
  intros maker z. rewrite Hmem. split.
  - intros (Hmaker & col & cell & Hcol & Hcell & Hint). split; [exact Hmaker|].
    exists col. split; [exact Hcol|].
    destruct (Hints maker col Hmaker Hcol) as (z' & Hz' & _).
    rewrite Hz' in Hcell. injection Hcell as <-. simpl in Hint. congruence.
  - intros (Hmaker & col & Hcol & Hcell). split; [exact Hmaker|].
    by exists col, (PInt z).
Qed.

Lemma latest_ranking_of_integers_witness :
  @maker_latest_list plain_runtime empty_frame = Returned [] ∧
  @maker_latest_list plain_runtime two_makers_frame
  = Returned [("byd"%string, 35); ("tesla"%string, 20)] ∧
  ∃ ranking,
    @maker_latest_list plain_runtime two_makers_frame = Returned ranking ∧
    StronglySorted count_ge ranking ∧
    NoDup ranking.*1 ∧
    ∀ maker z, (maker, z) ∈ ranking ↔
               maker ∈ MAKERS ∧
               ∃ col, df_cols two_makers_frame !! maker = Some col ∧
                      last col = Some (PInt z).
Proof.
  split_and!.
  - apply (proj1 (@latest_ranking_of_integers plain_runtime empty_frame)). reflexivity.
  - vm_compute. reflexivity.
  - apply (proj2 (@latest_ranking_of_integers plain_runtime two_makers_frame)).
    + discriminate.
    + apply (bool_decide_unpack
               (map_Forall (λ _ col, length col = 2%nat) (df_cols two_makers_frame))).
      vm_compute. exact I.
    + exists "tesla"%string. split; apply (bool_decide_unpack _); vm_compute; exact I.
    + intros maker col Hmaker Hcol. unfold MAKERS in Hmaker.
      rewrite !elem_of_cons, elem_of_nil in Hmaker.
      destruct Hmaker as [->|[->|[->|[->|[->|[->|[->|[]]]]]]]];
        vm_compute in Hcol; try discriminate Hcol;
        injection Hcol as <-; (eexists; split; [reflexivity|lia]).
Defined.

(** ** The two shapes of maker data *)

Lemma for_each_ext {A S} (xs : list A) (f g : S → A → outcome S) : ∀ s,
  (∀ s x, x ∈ xs → f s x = g s x) → for_each xs f s = for_each xs g s.
Proof.
  induction xs as [|x xs IH]; intros s Hfg; [reflexivity|].
  cbn [for_each]. rewrite Hfg by left.
  unfold mbind, outcome_bind, bind. destruct (g s x) as [s'| |]; [|reflexivity..].
  apply IH. intros s'' x' ?. apply Hfg. by right.
Qed.

(** X18: a list of rows and a mapping of series that hold the same
    values describe the same table: when there is one row per period and
    each maker's series lists, row by row, what the rows hold under the
    maker's name (null where a row is not a mapping or lacks the key),
    the normaliser returns the same result for both. *)
Theorem rows_and_mapping_agree `{RT : Runtime}
    (by_rows by_maker : request → http_result) (time_period : string)
    (periods rows : list pyobj) (data : gmap string pyobj) :
  time_period ∈ ["month"; "quarter"; "year"]%string →
  answers by_rows time_period periods (PList rows) →
  answers by_maker time_period periods (PDict data) →
  length rows = length periods →
  (∀ maker, maker ∈ MAKERS →
     data !! maker
     = Some (PList ((λ row, match row with
                            | PDict entry => default PNone (entry !! maker)
                            | _ => PNone
                            end) <$> rows))) →
  result (fetch_maker_metrics by_rows time_period)
  = result (fetch_maker_metrics by_maker time_period).
Proof.
  intros Hin Hrows Hmaker Hlen Hsame.
  destruct (fetch_maker_metrics_run by_rows time_period periods (PList rows) Hin Hrows)
    as (full1 & Hfull1 & ->); [reflexivity|].
  destruct (fetch_maker_metrics_run by_maker time_period periods (PDict data) Hin Hmaker)
    as (full2 & Hfull2 & ->); [reflexivity|].
  assert (align periods (PList rows) = align periods (PDict data)) as Halign.
  { unfold align. apply for_each_ext. intros df maker Hm.
    rewrite column_of_rows_cells. unfold mbind, outcome_bind. cbn [bind]. f_equal.
    rewrite (column_of_mapping_aligned periods data maker
               ((λ row, match row with
                        | PDict entry => default PNone (entry !! maker)
                        | _ => PNone
                        end) <$> rows)).
    - rewrite <- Hlen. apply list_eq. intros i.
      rewrite !list_lookup_fmap. destruct (decide (i < length rows)%nat) as [Hi|Hi].
      + rewrite lookup_seq_lt by exact Hi. simpl.
        destruct (lookup_lt_is_Some_2 rows i Hi) as [row ->]. simpl. by destruct row.
      + rewrite lookup_seq_ge by lia. by rewrite lookup_ge_None_2 by lia.
    - split; [by apply Hsame|]. by rewrite length_fmap. }
  unfold normalize in Hfull1, Hfull2. rewrite Halign in Hfull1. congruence.
Qed.

Lemma rows_and_mapping_agree_witness :
  result (@fetch_maker_metrics plain_runtime
            (λ _, HttpResponse 200
                    (Some (metrics_document [PStr "2024"]
                             (PList [PDict {[ "byd"%string := PInt 7 ]}]))))
            "year")
  = result (@fetch_maker_metrics plain_runtime
              (λ _, HttpResponse 200
                      (Some (metrics_document [PStr "2024"]
                               (PDict (list_to_map
                                         ((λ maker,
                                             (maker,
                                              PList [default PNone
                                                       (({[ "byd"%string := PInt 7 ]}
                                                          : gmap string pyobj) !! maker)]))
                                            <$> MAKERS))))))
              "year").
Proof.
  assert ("year"%string ∈ ["month"; "quarter"; "year"]%string) as Hin
    by (apply (bool_decide_unpack _); vm_compute; exact I).
  apply (@rows_and_mapping_agree plain_runtime _ _ "year" [PStr "2024"]
           [PDict {[ "byd"%string := PInt 7 ]}]
           (list_to_map
              ((λ maker,
                  (maker,
                   PList [default PNone
                            (({[ "byd"%string := PInt 7 ]} : gmap string pyobj) !! maker)]))
                 <$> MAKERS)) Hin).
  - eexists. split_and!; reflexivity.
  - eexists. split_and!; reflexivity.
  - reflexivity.
  - intros maker Hmaker. unfold MAKERS in Hmaker.
    rewrite !elem_of_cons, elem_of_nil in Hmaker.
    destruct Hmaker as [->|[->|[->|[->|[->|[->|[->|[]]]]]]]]; reflexivity.
Defined.

(** ** The extractor and the accumulator *)

(** X19: the extractor looks at nothing but the entries v2 and v1 of
    the document: two documents that agree on these two entries yield
    the same map, whatever else they hold. *)
Theorem extract_reads_only_schema_entries (doc1 doc2 : gmap string pyobj) :
  doc1 !! "v2"%string = doc2 !! "v2"%string →
  doc1 !! "v1"%string = doc2 !! "v1"%string →
  extract_car_models (PDict doc1) = extract_car_models (PDict doc2).
Proof.
  intros H2 H1. unfold extract_car_models. cbn [isinstance_dict negb].
  rewrite !probe_step. unfold probe, getitem. by rewrite H2, H1.
Qed.

Lemma extract_reads_only_schema_entries_witness :
  extract_car_models
    (PDict {[ "v1"%string := PDict {[ "cars"%string :=
                PDict {[ "models"%string := PDict {[ "ModelA"%string := PInt 3 ]} ]} ]};
              "updated"%string := PStr "2025-03-15" ]})
  = extract_car_models (daily_document "v1" {[ "ModelA"%string := PInt 3 ]}).
Proof.
  apply extract_reads_only_schema_entries; reflexivity.
Defined.

(** X20: the accumulation of two days commutes: adding the counts of
    one day and then those of another leaves the same totals as adding
    them the other way round. *)
Theorem accumulation_commutes `{RT : Runtime} (day1 day2 : gmap string pyobj)
    (row1 row2 : gmap string pyobj) (aggregated : gmap string Z) :
  countable day1 → countable day2 →
  ∃ after1 after2 totals,
    for_each (map_to_list day1) add_model (row1, aggregated)
    = Returned (day1 ∪ row1, after1) ∧
    for_each (map_to_list day2) add_model (row2, after1)
    = Returned (day2 ∪ row2, totals) ∧
    for_each (map_to_list day2) add_model (row2, aggregated)
    = Returned (day2 ∪ row2, after2) ∧
    for_each (map_to_list day1) add_model (row1, after2)
    = Returned (day1 ∪ row1, totals).
Proof.
  intros Hc1 Hc2.
  exists (add_counts day1 aggregated), (add_counts day2 aggregated),
         (add_counts day2 (add_counts day1 aggregated)).
  rewrite !items_loop_day by done. split_and!; try reflexivity.
  do 2 f_equal. apply map_eq. intros m. rewrite !lookup_add_counts.
  destruct (day1 !! m), (day2 !! m), (aggregated !! m); simpl; f_equal; lia.
Qed.

Lemma accumulation_commutes_witness :
  ∃ after1 after2 totals,
    for_each (map_to_list ({[ "ModelA"%string := PInt 2 ]} : gmap string pyobj))
      (@add_model plain_runtime) (∅, ∅)
    = Returned ({[ "ModelA"%string := PInt 2 ]} ∪ ∅, after1) ∧
    for_each (map_to_list ({[ "ModelA"%string := PInt 1; "ModelB"%string := PInt 5 ]}
                             : gmap string pyobj))
      (@add_model plain_runtime) (∅, after1)
    = Returned ({[ "ModelA"%string := PInt 1; "ModelB"%string := PInt 5 ]} ∪ ∅, totals) ∧
    for_each (map_to_list ({[ "ModelA"%string := PInt 1; "ModelB"%string := PInt 5 ]}
                             : gmap string pyobj))
      (@add_model plain_runtime) (∅, ∅)
    = Returned ({[ "ModelA"%string := PInt 1; "ModelB"%string := PInt 5 ]} ∪ ∅, after2) ∧
    for_each (map_to_list ({[ "ModelA"%string := PInt 2 ]} : gmap string pyobj))
      (@add_model plain_runtime) (∅, after2)
    = Returned ({[ "ModelA"%string := PInt 2 ]} ∪ ∅, totals).
Proof.
  apply (@accumulation_commutes plain_runtime);
    apply countableb_countable; vm_compute; reflexivity.
Defined.

(** ** What the page tests with [df.empty] *)

(** X21: the daily matrix of a run that returns is empty, in the sense
    of [df.empty], exactly when the month lies in the future: a month
    whose fetches all fail still gives a matrix that is not empty. *)
Theorem daily_matrix_empty_iff_future `{RT : Runtime} (TODAY : date)
    (requests_get : request → http_result) (year month : Z) :
  month_ok TODAY requests_get year month →
  ∃ daily_df summary_df,
    result (fetch_month_daily_aggregated TODAY requests_get year month)
    = Returned (daily_df, summary_df) ∧
    (df_empty daily_df = true ↔ date_ltb TODAY (mkdate year month 1) = true).
Proof.
  intros Hok. rewrite (fetch_month_run _ _ _ _ Hok).
  destruct (date_ltb TODAY (mkdate year month 1)) eqn:Hfuture.
  - do 2 eexists. split; [reflexivity|]. done.
  - do 2 eexists. split; [reflexivity|]. cbv zeta. split; [|discriminate].
    destruct (clamp_in_month TODAY year month Hfuture) as [_ Hrange].
    assert (mkdate year month 1 ∈ fetched_days TODAY year month) as Hfirst.
    { unfold fetched_days. rewrite Hfuture. apply month_days_lookup.
      exists 1. split; [done|lia]. }
    unfold df_empty. rewrite orb_true_iff. intros [Hlen|Hcols].
    + apply Nat.eqb_eq in Hlen. cbn [fillna0 frame_of_records df_len] in Hlen.
      rewrite length_fmap in Hlen. apply nil_length_inv in Hlen.
      rewrite Hlen in Hfirst. by apply elem_of_nil in Hfirst.
    + apply bool_decide_eq_true in Hcols.
      pose proof (daily_column requests_get (fetched_days TODAY year month) "Date"%string)
        as Hdate.
      rewrite Hcols, lookup_empty in Hdate. discriminate Hdate.
      exists (mkdate year month 1). split; [exact Hfirst|].
      unfold day_row. rewrite dom_union_L, dom_singleton_L.
      apply elem_of_union. right. by apply elem_of_singleton.
Qed.

Lemma daily_matrix_empty_iff_future_witness :
  ∃ daily_df summary_df,
    result (@fetch_month_daily_aggregated plain_runtime (mkdate 2025 3 2)
              (λ _, ConnectionFailed) 2025 3)
    = Returned (daily_df, summary_df) ∧
    (df_empty daily_df = true ↔ date_ltb (mkdate 2025 3 2) (mkdate 2025 3 1) = true).
Proof.
  apply (@daily_matrix_empty_iff_future plain_runtime).
  apply month_okb_ok. vm_compute. reflexivity.
Defined.

(** X22: the table the normaliser returns for an answer is empty, in the
    sense of [df.empty], exactly when the answer has no periods. *)
Theorem maker_table_empty_iff_no_periods `{RT : Runtime}
    (requests_get : request → http_result) (time_period : string)
    (periods : list pyobj) (data : pyobj) :
  time_period ∈ ["month"; "quarter"; "year"]%string →
  answers requests_get time_period periods data →
  isinstance_dict data || isinstance_list data = true →
  ∃ df,
    result (fetch_maker_metrics requests_get time_period) = Returned df ∧
    (df_empty df = true ↔ periods = []).
Proof.
  intros Hin Hanswer Hshape.
  destruct (returned_table requests_get time_period periods data Hin Hanswer Hshape)
    as (df & Hrun & Hlen & Hperiod & _).
  exists df. split; [exact Hrun|].
  assert (0 < window time_period)%nat as Hwindow.
  { rewrite !elem_of_cons, elem_of_nil in Hin.
    destruct Hin as [->|[->|[->|[]]]]; vm_compute; lia. }
  unfold df_empty. rewrite orb_true_iff, Nat.eqb_eq, Hlen. split.
  - intros [Hzero|Hcols].
    + destruct periods; [reflexivity|]. cbn [length] in Hzero. lia.
    + apply bool_decide_eq_true in Hcols.
      rewrite Hcols, lookup_empty in Hperiod. discriminate Hperiod.
  - intros ->. by left.
Qed.

Lemma maker_table_empty_iff_no_periods_witness :
  ∃ df,
    result (@fetch_maker_metrics plain_runtime example_metrics_server "month") = Returned df ∧
    (df_empty df = true ↔ [PStr "2024-01"; PStr "2024-02"] = []).
Proof.
  assert ("month"%string ∈ ["month"; "quarter"; "year"]%string) as Hin
    by (apply (bool_decide_unpack _); vm_compute; exact I).
  apply (@maker_table_empty_iff_no_periods plain_runtime example_metrics_server "month"
           [PStr "2024-01"; PStr "2024-02"]
           (PDict {[ "tesla"%string := PList [PInt 10; PInt 20] ]}) Hin).
  - eexists. split_and!; reflexivity.
  - reflexivity.
Defined.
